(** * youtube-mp3: the provisioning and download glue of [run.py]

    A shallow embedding of [ensure_ffmpeg_installed] and
    [download_youtube_audio].  The two functions are orchestration code:
    every interesting step is a call into the operating system, the network
    or a subprocess.  The host is therefore a record of operations over an
    unspecified state, the program is written in a small state-and-exception
    monad that records each outward call in a trace, and the Python string
    methods the parser relies on ([in], [split], [strip], [endswith]) are
    executable functions on [string].

    Characters are [ascii]: a Python [str] is modelled for code points below
    256.  Python exceptions are modelled for instances of [Exception]
    (the class the catch-all [except] clauses name); [KeyboardInterrupt] is
    outside the model, and [sys.exit] occurs only in the entry point, where
    it is an ending of its own.  [print] and the pure path functions are
    taken to succeed; every other call into the host may raise. *)

From Stdlib Require Import String Ascii List ZArith Bool Arith Lia.
From Stdlib Require Import DecimalString.
Import ListNotations.
Open Scope string_scope.

(* ================================================================== *)
(** ** Python string methods *)

Module PyStr.

(** ['\n'] *)
Definition NL : string := String "010"%char EmptyString.

(** [s.startswith(p)] *)
Fixpoint startswith (p s : string) : bool :=
  match p, s with
  | EmptyString, _ => true
  | String _ _, EmptyString => false
  | String a p', String b s' => Ascii.eqb a b && startswith p' s'
  end.

(** [sub in s]: [sub] occurs in [s] at some position. *)
Fixpoint contains (sub s : string) : bool :=
  startswith sub s
  || match s with
     | EmptyString => false
     | String _ s' => contains sub s'
     end.

(** Reverse of a string, used to flush the accumulator of [split]. *)
Fixpoint rev_append (acc s : string) : string :=
  match acc with
  | EmptyString => s
  | String c acc' => rev_append acc' (String c s)
  end.

Definition rev (s : string) : string := rev_append s EmptyString.

(** The scanner behind [s.split(sep)] for a non-empty [sep]: left to right,
    non-overlapping.  [skip] counts the characters of a separator just
    matched that are still to be consumed; [cur] is the current field,
    reversed. *)
Fixpoint split_go (sep : string) (skip : nat) (cur s : string) : list string :=
  match s with
  | EmptyString => [rev cur]
  | String c s' =>
      match skip with
      | S k => split_go sep k cur s'
      | O =>
          if startswith sep s
          then rev cur :: split_go sep (String.length sep - 1) EmptyString s'
          else split_go sep O (String c cur) s'
      end
  end.

(** [s.split(sep)]; every call site of the program passes a non-empty
    literal (Python raises [ValueError] on an empty separator). *)
Definition split (sep s : string) : list string := split_go sep 0 EmptyString s.

(** [c.isspace()] on code points below 256: TAB..CR, FS..US, SPACE, NEL and
    NBSP. *)
Definition isspace (c : ascii) : bool :=
  let n := nat_of_ascii c in
  ((9 <=? n)%nat && (n <=? 13)%nat) || ((28 <=? n)%nat && (n <=? 32)%nat)
  || (n =? 133)%nat || (n =? 160)%nat.

(** [s.lstrip()] *)
Fixpoint lstrip (s : string) : string :=
  match s with
  | EmptyString => EmptyString
  | String c s' => if isspace c then lstrip s' else s
  end.

(** [s.rstrip()] *)
Fixpoint rstrip (s : string) : string :=
  match s with
  | EmptyString => EmptyString
  | String c s' =>
      match rstrip s' with
      | EmptyString => if isspace c then EmptyString else String c EmptyString
      | r => String c r
      end
  end.

(** [s.strip()] *)
Definition strip (s : string) : string := rstrip (lstrip s).

(** [s.endswith(suffix)] *)
Definition endswith (s suffix : string) : bool :=
  (String.length suffix <=? String.length s)%nat
  && String.eqb
       (String.substring (String.length s - String.length suffix)
          (String.length suffix) s)
       suffix.

(** Truthiness of a [str]: the empty string is falsy. *)
Definition truthy (s : string) : bool :=
  match s with
  | EmptyString => false
  | String _ _ => true
  end.

End PyStr.

(* ================================================================== *)
(** ** Python text of values: [repr] of a [str], [str] of a list, [%d] *)

Module PyRepr.

Definition hex_digit (n : nat) : ascii :=
  match n with
  | 0 => "0" | 1 => "1" | 2 => "2" | 3 => "3" | 4 => "4" | 5 => "5"
  | 6 => "6" | 7 => "7" | 8 => "8" | 9 => "9" | 10 => "a" | 11 => "b"
  | 12 => "c" | 13 => "d" | 14 => "e" | _ => "f"
  end%char.

(** The escape [\xhh], two lower-case hexadecimal digits. *)
Definition hex_escape (c : ascii) : string :=
  let n := nat_of_ascii c in
  String "092" (String "x"
    (String (hex_digit (n / 16)) (String (hex_digit (n mod 16)) EmptyString))).

(** [c.isprintable()] on code points below 256: the controls, DEL, NBSP
    and the soft hyphen are not. *)
Definition isprintable (c : ascii) : bool :=
  let n := nat_of_ascii c in
  ((32 <=? n)%nat && (n <? 127)%nat)
  || ((161 <=? n)%nat && negb (n =? 173)%nat).

(** One character inside [repr(s)], [quote] being the quote chosen. *)
Definition repr_char (quote c : ascii) : string :=
  if Ascii.eqb c quote || Ascii.eqb c "092"
  then String "092" (String c EmptyString)
  else if Ascii.eqb c "009" then String "092" "t"
  else if Ascii.eqb c "010" then String "092" "n"
  else if Ascii.eqb c "013" then String "092" "r"
  else if isprintable c then String c EmptyString
  else hex_escape c.

Fixpoint repr_body (quote : ascii) (s : string) : string :=
  match s with
  | EmptyString => EmptyString
  | String c s' => repr_char quote c ++ repr_body quote s'
  end.

(** [repr(s)]: single quotes, unless [s] holds a single quote and no double
    quote. *)
Definition repr_str (s : string) : string :=
  let quote :=
    if PyStr.contains "'" s && negb (PyStr.contains (String "034" EmptyString) s)
    then "034"%char else "039"%char in
  String quote (repr_body quote s ++ String quote EmptyString).

Fixpoint join_comma (items : list string) : string :=
  match items with
  | [] => EmptyString
  | [x] => x
  | x :: rest => x ++ ", " ++ join_comma rest
  end.

(** [str(lst)] for a list of [str]. *)
Definition str_list (lst : list string) : string :=
  "[" ++ join_comma (map repr_str lst) ++ "]".

(** ["%d" % n] *)
Definition decimal (n : Z) : string := NilZero.string_of_int (Z.to_int n).

End PyRepr.

(* ================================================================== *)
(** ** Exceptions, results and the trace of outward calls *)

(** The exception classes the two functions can meet.  All derive from
    [Exception]. *)
Inductive exc_class : Type :=
| FileNotFoundError        (* OSError, ENOENT *)
| PermissionError          (* OSError, EACCES / EPERM *)
| FileExistsError          (* OSError, EEXIST *)
| NotADirectoryError       (* OSError, ENOTDIR *)
| OSError                  (* any other OSError *)
| SubprocessError          (* subprocess.SubprocessError itself *)
| CalledProcessError       (* subclass of SubprocessError *)
| TimeoutExpired           (* subclass of SubprocessError *)
| URLError                 (* urllib.error.URLError, subclass of OSError *)
| BadZipFile               (* zipfile.BadZipFile *)
| IndexError
| OtherException.          (* any other subclass of Exception *)

(** An exception instance: its class and [str(e)]. *)
Record exn : Type := mkExn { exc_type : exc_class; exc_str : string }.

(** [isinstance(e, (subprocess.SubprocessError, FileNotFoundError))], the
    tuple of run.py line 16. *)
Definition isinstance_probe_failure (e : exn) : bool :=
  match exc_type e with
  | SubprocessError | CalledProcessError | TimeoutExpired
  | FileNotFoundError => true
  | _ => false
  end.

Inductive outcome (A : Type) : Type :=
| Return (a : A)
| Raise (e : exn).
Arguments Return {A} a.
Arguments Raise {A} e.

(** [subprocess.CompletedProcess] with captured text streams. *)
Record CompletedProcess : Type := mkCompleted {
  returncode : Z;
  stdout : string;
  stderr : string
}.

(** One record per outward call the program makes, in program order; the
    call is recorded when it is attempted, whatever its result. *)
Inductive event : Type :=
| Print (text : string)
| SubprocessRun (args : list string)
| Makedirs (path : string)
| Urlretrieve (url filename : string)
| ExtractAll (archive dest : string)
| Copy (src dst : string)
| Rmtree (path : string).

Definition is_network (e : event) : bool :=
  match e with
  | Urlretrieve _ _ => true
  | _ => false
  end.

Definition is_fs_write (e : event) : bool :=
  match e with
  | Makedirs _ | Urlretrieve _ _ | ExtractAll _ _ | Copy _ _ | Rmtree _ => true
  | Print _ | SubprocessRun _ => false
  end.

Definition is_copy (e : event) : bool :=
  match e with
  | Copy _ _ => true
  | _ => false
  end.

Definition is_print (e : event) : bool :=
  match e with
  | Print _ => true
  | _ => false
  end.

(** One triple yielded by [os.walk]: [(root, dirs, files)]. *)
Definition walk_entry : Type := (string * list string * list string)%type.

(** The host the program runs on.  Queries read the state; commands return
    a result or raise, and a successor state. *)
Record Host (St : Type) : Type := mkHost {
  sys_frozen : St -> bool;                 (* getattr(sys, 'frozen', False) *)
  sys_executable : St -> string;
  platform_system : St -> string;
  module_dir : St -> string;  (* os.path.dirname(os.path.abspath(__file__)) *)
  os_path_join : string -> string -> string;
  os_path_dirname : string -> string;
  os_path_exists : string -> St -> bool;
  os_path_getctime : string -> St -> Z;
  os_listdir : string -> St -> outcome (list string);
  os_walk : string -> St -> list walk_entry;
  os_makedirs : string -> bool -> St -> outcome unit * St;
  subprocess_exec : list string -> St -> outcome CompletedProcess * St;
  urlretrieve : string -> string -> St -> outcome unit * St;
  zipfile_extractall : string -> string -> St -> outcome unit * St;
  shutil_copy : string -> string -> St -> outcome unit * St;
  shutil_rmtree : string -> St -> outcome unit * St;
  (* signal.Signals(n).name on this platform; None where Signals(n) raises
     ValueError *)
  signal_name : Z -> option string
}.
Arguments sys_frozen {St}.
Arguments sys_executable {St}.
Arguments platform_system {St}.
Arguments module_dir {St}.
Arguments os_path_join {St}.
Arguments os_path_dirname {St}.
Arguments os_path_exists {St}.
Arguments os_path_getctime {St}.
Arguments os_listdir {St}.
Arguments os_walk {St}.
Arguments os_makedirs {St}.
Arguments subprocess_exec {St}.
Arguments urlretrieve {St}.
Arguments zipfile_extractall {St}.
Arguments shutil_copy {St}.
Arguments shutil_rmtree {St}.
Arguments signal_name {St}.

(* ================================================================== *)
(** ** The monad: host state, trace, exceptions *)

Section Monad.
Context {St : Type}.

Definition M (A : Type) : Type :=
  St * list event -> outcome A * (St * list event).

Definition ret {A} (a : A) : M A := fun w => (Return a, w).

Definition raise {A} (e : exn) : M A := fun w => (Raise e, w).

Definition bind {A B} (m : M A) (k : A -> M B) : M B :=
  fun w =>
    match m w with
    | (Return a, w') => k a w'
    | (Raise e, w') => (Raise e, w')
    end.

(** [try: body / except Exception as e: handler e] *)
Definition try_except {A} (body : M A) (handler : exn -> M A) : M A :=
  fun w =>
    match body w with
    | (Return a, w') => (Return a, w')
    | (Raise e, w') => handler e w'
    end.

(** [try: body / except classes as e: handler e]: an exception outside
    [classes] propagates. *)
Definition try_except_when {A} (classes : exn -> bool)
    (body : M A) (handler : exn -> M A) : M A :=
  fun w =>
    match body w with
    | (Return a, w') => (Return a, w')
    | (Raise e, w') => if classes e then handler e w' else (Raise e, w')
    end.

(** A query of the host state. *)
Definition query {A} (f : St -> A) : M A := fun w => (Return (f (fst w)), w).

(** A query that may raise. *)
Definition query_exn {A} (f : St -> outcome A) : M A := fun w => (f (fst w), w).

(** A command of the host, recorded in the trace as [ev]. *)
Definition command {A} (ev : event) (f : St -> outcome A * St) : M A :=
  fun w =>
    let '(r, s') := f (fst w) in
    (r, (s', (snd w ++ [ev])%list)).

(** [print(text)] *)
Definition print (text : string) : M unit :=
  fun w => (Return tt, (fst w, (snd w ++ [Print text])%list)).

(** Running a computation from a state with an empty trace. *)
Definition exec {A} (m : M A) (s : St) : outcome A * (St * list event) :=
  m (s, []).

Definition result_of {A} (r : outcome A * (St * list event)) : outcome A := fst r.
Definition state_of {A} (r : outcome A * (St * list event)) : St := fst (snd r).
Definition trace_of {A} (r : outcome A * (St * list event)) : list event :=
  snd (snd r).
End Monad.
Arguments M : clear implicits.

Declare Scope py_scope.
Delimit Scope py_scope with py.
Notation "x <- m ;; k" := (bind m (fun x => k))
  (at level 100, m at next level, right associativity) : py_scope.
Notation "m ;;; k" := (bind m (fun _ => k))
  (at level 100, right associativity) : py_scope.
Open Scope py_scope.

(* ================================================================== *)
(** ** The program *)

(** The substring tested by run.py line 103. *)
Definition MARKER : string := "[ExtractAudio] Destination:".

(** The separator of run.py line 104: the marker and one space. *)
Definition MARKER_SEP : string := "[ExtractAudio] Destination: ".

Definition ffmpeg_url : string :=
  "https://github.com/BtbN/FFmpeg-Builds/releases/download/latest/ffmpeg-master-latest-win64-gpl.zip".

Definition probe_command : list string := ["ffmpeg"; "-version"].

(** [lst[1]] *)
Definition index_1 (lst : list string) : outcome string :=
  match nth_error lst 1 with
  | Some x => Return x
  | None => Raise (mkExn IndexError "list index out of range")
  end.

(** run.py line 104: [line.split("[ExtractAudio] Destination: ")[1].strip()] *)
Definition destination_of (line : string) : outcome string :=
  match index_1 (PyStr.split MARKER_SEP line) with
  | Return field => Return (PyStr.strip field)
  | Raise e => Raise e
  end.

(** run.py lines 100-105: [mp3_file = None], then the [for] loop with its
    [break] at the first line that contains the marker. *)
Fixpoint scan_destination (output_lines : list string) : outcome (option string) :=
  match output_lines with
  | [] => Return None
  | line :: rest =>
      if PyStr.contains MARKER line
      then match destination_of line with
           | Return p => Return (Some p)
           | Raise e => Raise e
           end
      else scan_destination rest
  end.

(** [lst[-1]] for a list known to be non-empty at the call site; [None]
    stands for the empty list, which line 111 tests first. *)
Fixpoint last_item (lst : list string) : option string :=
  match lst with
  | [] => None
  | [x] => Some x
  | _ :: rest => last_item rest
  end.

Section Program.
Context {St : Type} (H : Host St).

(** [subprocess.CalledProcessError(status, cmd)] with its [str]: the death
    by a signal for a negative status, the exit status otherwise. *)
Definition called_process_error (cmd : list string) (status : Z) : exn :=
  mkExn CalledProcessError
    (if (status <? 0)%Z
     then match signal_name H (- status) with
          | Some name =>
              "Command '" ++ PyRepr.str_list cmd ++ "' died with <Signals."
              ++ name ++ ": " ++ PyRepr.decimal (- status) ++ ">."
          | None =>
              "Command '" ++ PyRepr.str_list cmd
              ++ "' died with unknown signal " ++ PyRepr.decimal (- status) ++ "."
          end
     else "Command '" ++ PyRepr.str_list cmd
          ++ "' returned non-zero exit status " ++ PyRepr.decimal status ++ ".").

(** [subprocess.run(args, capture_output=True, ..., check=check)].  With
    [check] a non-zero exit status raises [CalledProcessError]. *)
Definition subprocess_run (args : list string) (check : bool)
  : M St CompletedProcess :=
  cp <- command (SubprocessRun args) (subprocess_exec H args) ;;
  if check && negb (returncode cp =? 0)%Z
  then raise (called_process_error args (returncode cp))
  else ret cp.

(** run.py lines 37-42: the [for] loop over [os.walk], with its [break]
    after the first directory that holds [ffmpeg.exe]. *)
Fixpoint copy_first_ffmpeg (walk : list walk_entry) (dest : string) : M St unit :=
  match walk with
  | [] => ret tt
  | (root, _, files) :: rest =>
      if existsb (String.eqb "ffmpeg.exe") files
      then let ffmpeg_path := os_path_join H root "ffmpeg.exe" in
           command (Copy ffmpeg_path dest) (shutil_copy H ffmpeg_path dest)
      else copy_first_ffmpeg rest dest
  end.

(** run.py lines 22-47: the body of the inner [try]. *)
Definition fetch_ffmpeg : M St bool :=
  here <- query (module_dir H) ;;
  let temp_dir := os_path_join H here "temp" in
  command (Makedirs temp_dir) (os_makedirs H temp_dir true) ;;;
  let zip_path := os_path_join H temp_dir "ffmpeg.zip" in
  command (Urlretrieve ffmpeg_url zip_path) (urlretrieve H ffmpeg_url zip_path) ;;;
  command (ExtractAll zip_path temp_dir) (zipfile_extractall H zip_path temp_dir) ;;;
  walk <- query (os_walk H temp_dir) ;;
  copy_first_ffmpeg walk here ;;;
  command (Rmtree temp_dir) (shutil_rmtree H temp_dir) ;;;
  print "FFmpeg downloaded successfully." ;;;
  ret true.

(** run.py lines 10-50. *)
Definition ensure_ffmpeg_installed : M St bool :=
  try_except_when isinstance_probe_failure
    (subprocess_run probe_command true ;;;
     ret true)
    (fun _ =>
       system <- query (platform_system H) ;;
       if negb (system =? "Windows")
       then print "FFmpeg is not installed. Please install it manually." ;;;
            ret false
       else
         print "FFmpeg not found. Downloading..." ;;;
         try_except fetch_ffmpeg
           (fun e =>
              print ("Error downloading FFmpeg: " ++ exc_str e) ;;;
              ret false)).

(** run.py lines 54-55, which precede the [try]. *)
Definition ensure_output_folder (output_folder : string) : M St unit :=
  present <- query (os_path_exists H output_folder) ;;
  if negb present
  then command (Makedirs output_folder) (os_makedirs H output_folder false)
  else ret tt.

(** run.py lines 65-76: the two executable paths. *)
Definition tool_paths (s : St) : string * string :=
  if sys_frozen H s
  then
    let base_path := os_path_dirname H (sys_executable H s) in
    if platform_system H s =? "Windows"
    then (os_path_join H base_path "yt-dlp.exe",
          os_path_join H base_path "ffmpeg.exe")
    else if platform_system H s =? "Darwin"
    then (os_path_join H base_path "yt-dlp",
          os_path_join H base_path "ffmpeg")
    else ("yt-dlp", "ffmpeg")
  else ("yt-dlp", "ffmpeg").

(** run.py lines 62 and 78-88: the argument vector. *)
Definition download_command (s : St) (url output_folder : string) : list string :=
  let output_template := os_path_join H output_folder "%(title)s.%(ext)s" in
  let '(yt_dlp_path, ffmpeg_path) := tool_paths s in
  [ yt_dlp_path;
    "-f"; "bestaudio";
    "-o"; output_template;
    "--extract-audio";
    "--audio-format"; "mp3";
    "--audio-quality"; "0";
    "--restrict-filenames";
    "--ffmpeg-location"; os_path_dirname H ffmpeg_path;
    url ].

(** run.py lines 109-110: the list comprehension over [os.listdir]. *)
Definition mp3_candidates (output_folder : string) (names : list string)
  : list string :=
  map (os_path_join H output_folder)
      (filter (fun f => PyStr.endswith f ".mp3") names).

(** run.py line 107: [not mp3_file or not os.path.exists(mp3_file)], with
    the short circuit of [or]. *)
Definition needs_fallback (mp3_file : option string) : M St bool :=
  match mp3_file with
  | None => ret true
  | Some p =>
      if negb (PyStr.truthy p) then ret true
      else present <- query (os_path_exists H p) ;; ret (negb present)
  end.

(** run.py lines 107-115: the value of [mp3_file] on reaching line 117, or
    [None] for the early [return None] of line 115. *)
Definition locate_mp3 (output_folder : string) (mp3_file : option string)
  : M St (option string) :=
  fallback <- needs_fallback mp3_file ;;
  if fallback
  then
    names <- query_exn (os_listdir H output_folder) ;;
    match last_item (mp3_candidates output_folder names) with
    | Some f => ret (Some f)
    | None => print "Download completed but MP3 file not found." ;;;
              ret None
    end
  else ret mp3_file.

(** run.py lines 107-118: locate the file, report it and return it. *)
Definition finish_download (output_folder : string) (mp3_file : option string)
  : M St (option string) :=
  located <- locate_mp3 output_folder mp3_file ;;
  match located with
  | None => ret None
  | Some f => print ("Downloaded and converted to MP3: " ++ f) ;;;
              ret (Some f)
  end.

(** run.py lines 58-118: the body of the [try]. *)
Definition download_body (url output_folder : string) : M St (option string) :=
  print ("Attempting to access: " ++ url) ;;;
  cmd <- query (fun s => download_command s url output_folder) ;;
  print "Running download command..." ;;;
  result <- subprocess_run cmd false ;;
  if negb (returncode result =? 0)%Z
  then print ("Error downloading: " ++ stderr result) ;;;
       ret None
  else
    let output_lines := PyStr.split PyStr.NL (stdout result) in
    mp3_file <- query_exn (fun _ => scan_destination output_lines) ;;
    finish_download output_folder mp3_file.

(** run.py lines 120-122: the handler of [except Exception as e]. *)
Definition unexpected_error (e : exn) : M St (option string) :=
  print ("Unexpected error: " ++ exc_str e) ;;;
  ret None.

(** run.py lines 52-122. *)
Definition download_youtube_audio (url output_folder : string)
  : M St (option string) :=
  ensure_output_folder output_folder ;;;
  try_except (download_body url output_folder) unexpected_error.

End Program.

(* ================================================================== *)
(** ** What the claims speak about *)

Section Observations.
Context {St : Type} (H : Host St).

(** The probe of run.py line 14 succeeds in state [s]: the binary is
    found and exits with status 0. *)
Definition ffmpeg_invocable (s : St) : Prop :=
  exists cp s',
    subprocess_exec H probe_command s = (Return cp, s')
    /\ returncode cp = 0%Z.

(** The records left by run.py lines 58-91: the steps of the [try] body
    up to and including the subprocess. *)
Definition prelude (s1 : St) (url output_folder : string) : list event :=
  [ Print ("Attempting to access: " ++ url);
    Print "Running download command...";
    SubprocessRun (download_command H s1 url output_folder) ].



(** [p] is, among [candidates], a file created no earlier than any other. *)
Definition most_recently_created (s : St) (candidates : list string)
    (p : string) : Prop :=
  In p candidates
  /\ forall q, In q candidates ->
               (os_path_getctime H q s <= os_path_getctime H p s)%Z.

(** [path] is the text that follows the marker in [line], without the
    surrounding white space. *)
Definition names_destination (line path : string) : Prop :=
  exists pre rest,
    line = pre ++ MARKER ++ rest /\ path = PyStr.strip rest.

(** The marker property read over any marker line of the captured
    output: whenever the tool exits with status 0 and some line names,
    after the marker, a path that exists, that path is returned. *)
Definition returns_any_marked_path (s : St) (url output_folder : string)
  : Prop :=
  forall s1 t1 cp s2 line path,
    ensure_output_folder H output_folder (s, []) = (Return tt, (s1, t1)) ->
    subprocess_exec H (download_command H s1 url output_folder) s1
      = (Return cp, s2) ->
    returncode cp = 0%Z ->
    In line (PyStr.split PyStr.NL (stdout cp)) ->
    names_destination line path ->
    os_path_exists H path s2 = true ->
    result_of (exec (download_youtube_audio H url output_folder) s)
      = Return (Some path).
End Observations.

(* ================================================================== *)
(** ** A concrete host, for evaluating the program *)

Module Toy.

(** The state of the concrete host. *)
Record state : Type := mkState {
  system : string;                         (* platform.system() *)
  frozen : bool;
  here : string;                           (* directory of run.py *)
  existing : list string;                  (* paths os.path.exists accepts *)
  listing : list (string * list string);   (* os.listdir, in host order *)
  ctime : list (string * Z);               (* creation times *)
  ffmpeg : outcome CompletedProcess;       (* running ffmpeg -version *)
  ytdlp : outcome CompletedProcess;        (* running any other command *)
  download : outcome unit;                 (* fetching the archive *)
  unpacked : list walk_entry               (* os.walk after unpacking *)
}.

Fixpoint lookup {A} (k : string) (tbl : list (string * A)) : option A :=
  match tbl with
  | [] => None
  | (k', v) :: rest => if k =? k' then Some v else lookup k rest
  end.

(** [a + sep + b] unless [a] is empty or already ends in [sep]; a second
    component that starts with [sep] replaces the first.  With ["/"] this is
    [posixpath.join]. *)
Definition join (sep a b : string) : string :=
  if PyStr.startswith sep b then b
  else if negb (PyStr.truthy a) || PyStr.endswith a sep then a ++ b
  else a ++ sep ++ b.

(** [p[:p.rfind(sep) + 1]] for a one-character [sep]. *)
Fixpoint head_of (sep p : string) : string :=
  match p with
  | EmptyString => EmptyString
  | String c p' =>
      if PyStr.contains sep p then String c (head_of sep p') else EmptyString
  end.

(** [head.rstrip(sep)] *)
Fixpoint rstrip_sep (sep s : string) : string :=
  match s with
  | EmptyString => EmptyString
  | String c s' =>
      match rstrip_sep sep s' with
      | EmptyString =>
          if String c EmptyString =? sep then EmptyString
          else String c EmptyString
      | r => String c r
      end
  end.

(** [posixpath.dirname] with separator [sep]: the head up to the last
    separator, without trailing separators unless it consists of them.
    Drive letters are not told apart: with a backslash this is
    [ntpath.dirname] only below the root of a drive. *)
Definition dirname (sep p : string) : string :=
  let head := head_of sep p in
  match rstrip_sep sep head with
  | EmptyString => head
  | r => r
  end.

Definition mem (p : string) (l : list string) : bool := existsb (String.eqb p) l.

(** [os.makedirs(path, exist_ok=...)]: the empty path does not name a
    directory; an existing one is refused unless [exist_ok]. *)
Definition makedirs (path : string) (exist_ok : bool) (s : state)
  : outcome unit * state :=
  if negb (PyStr.truthy path)
  then (Raise (mkExn FileNotFoundError "[Errno 2] No such file or directory: ''"), s)
  else if mem path (existing s) && negb exist_ok
  then (Raise (mkExn FileExistsError ("[Errno 17] File exists: '" ++ path ++ "'")), s)
  else (Return tt,
        mkState (system s) (frozen s) (here s) (path :: existing s) (listing s)
          (ctime s) (ffmpeg s) (ytdlp s) (download s) (unpacked s)).

Definition listdir (path : string) (s : state) : outcome (list string) :=
  match lookup path (listing s) with
  | Some names => Return names
  | None =>
      Raise (mkExn FileNotFoundError
               ("[Errno 2] No such file or directory: '" ++ path ++ "'"))
  end.

Definition run_process (args : list string) (s : state)
  : outcome CompletedProcess * state :=
  match args with
  | "ffmpeg" :: _ => (ffmpeg s, s)
  | _ => (ytdlp s, s)
  end.

(** Copying the executable next to the program makes it invocable. *)
Definition copy (src dst : string) (s : state) : outcome unit * state :=
  (Return tt,
   mkState (system s) (frozen s) (here s) (existing s) (listing s) (ctime s)
     (Return (mkCompleted 0 "ffmpeg version N" "")) (ytdlp s) (download s)
     (unpacked s)).

(** The standard signals of Linux. *)
Definition linux_signals : list (Z * string) :=
  [ (1, "SIGHUP"); (2, "SIGINT"); (3, "SIGQUIT"); (4, "SIGILL");
    (5, "SIGTRAP"); (6, "SIGABRT"); (7, "SIGBUS"); (8, "SIGFPE");
    (9, "SIGKILL"); (10, "SIGUSR1"); (11, "SIGSEGV"); (12, "SIGUSR2");
    (13, "SIGPIPE"); (14, "SIGALRM"); (15, "SIGTERM"); (16, "SIGSTKFLT");
    (17, "SIGCHLD"); (18, "SIGCONT"); (19, "SIGSTOP"); (20, "SIGTSTP");
    (21, "SIGTTIN"); (22, "SIGTTOU"); (23, "SIGURG"); (24, "SIGXCPU");
    (25, "SIGXFSZ"); (26, "SIGVTALRM"); (27, "SIGPROF"); (28, "SIGWINCH");
    (29, "SIGIO"); (30, "SIGPWR"); (31, "SIGSYS"); (34, "SIGRTMIN");
    (64, "SIGRTMAX") ]%Z.

(** The members of [signal.Signals] on Windows. *)
Definition windows_signals : list (Z * string) :=
  [ (0, "CTRL_C_EVENT"); (1, "CTRL_BREAK_EVENT"); (2, "SIGINT");
    (4, "SIGILL"); (8, "SIGFPE"); (11, "SIGSEGV"); (15, "SIGTERM");
    (21, "SIGBREAK"); (22, "SIGABRT") ]%Z.

Fixpoint signal_of (table : list (Z * string)) (n : Z) : option string :=
  match table with
  | [] => None
  | (k, name) :: rest => if (n =? k)%Z then Some name else signal_of rest n
  end.

Definition host (sep : string) : Host state :=
  {| sys_frozen := frozen;
     sys_executable := fun s => join sep (here s) "run.exe";
     platform_system := system;
     module_dir := here;
     os_path_join := join sep;
     os_path_dirname := dirname sep;
     os_path_exists := fun p s => mem p (existing s);
     os_path_getctime := fun p s =>
       match lookup p (ctime s) with Some t => t | None => 0%Z end;
     os_listdir := listdir;
     os_walk := fun _ s => unpacked s;
     os_makedirs := makedirs;
     subprocess_exec := run_process;
     urlretrieve := fun _ _ s => (download s, s);
     zipfile_extractall := fun _ _ s => (Return tt, s);
     shutil_copy := copy;
     shutil_rmtree := fun _ s => (Return tt, s);
     signal_name :=
       signal_of (if sep =? "/" then linux_signals else windows_signals) |}.

Definition posix : Host state := host "/".
Definition windows : Host state := host "\".

Definition not_found (what : string) : exn :=
  mkExn FileNotFoundError ("[Errno 2] No such file or directory: '" ++ what ++ "'").

Definition line (text : string) : string := text ++ PyStr.NL.

Definition video : string := "https://www.youtube.com/watch?v=dQw4w9WgXcQ".

(** A Linux host with both tools installed, after a run of the retrieval
    tool that wrote [downloads/song.mp3] and said so. *)
Definition scenario_A : state :=
  {| system := "Linux"; frozen := false; here := "/home/u/app";
     existing := ["downloads"; "downloads/song.mp3"];
     listing := [("downloads", ["song.mp3"])];
     ctime := [("downloads/song.mp3", 500%Z)];
     ffmpeg := Return (mkCompleted 0 "ffmpeg version N" "");
     ytdlp := Return (mkCompleted 0
                (line "[youtube] Extracting URL"
                 ++ line "[download] 100% of 3.21MiB"
                 ++ line "[ExtractAudio] Destination: downloads/song.mp3"
                 ++ line "Deleting original file downloads/song.webm")
                "");
     download := Return tt;
     unpacked := [] |}.

(** The retrieval tool fails: scenario B. *)
Definition scenario_B : state :=
  {| system := "Linux"; frozen := false; here := "/home/u/app";
     existing := ["downloads"];
     listing := [("downloads", [])];
     ctime := [];
     ffmpeg := Return (mkCompleted 0 "ffmpeg version N" "");
     ytdlp := Return (mkCompleted 1 "" "video unavailable");
     download := Return tt;
     unpacked := [] |}.

(** Two marker lines: the first names a file that is not there, the second
    one that is; the folder lists a further file after it. *)
Definition two_markers : state :=
  {| system := "Linux"; frozen := false; here := "/home/u/app";
     existing := ["downloads"; "downloads/b.mp3"; "downloads/c.mp3"];
     listing := [("downloads", ["b.mp3"; "c.mp3"])];
     ctime := [("downloads/b.mp3", 900%Z); ("downloads/c.mp3", 100%Z)];
     ffmpeg := Return (mkCompleted 0 "ffmpeg version N" "");
     ytdlp := Return (mkCompleted 0
                (line "[ExtractAudio] Destination: downloads/a.mp3"
                 ++ line "[ExtractAudio] Destination: downloads/b.mp3")
                "");
     download := Return tt;
     unpacked := [] |}.

(** No marker in the output; the folder holds an old file and a new one,
    listed in name order. *)
Definition stale_file : state :=
  {| system := "Windows"; frozen := false; here := "C:\app";
     existing := ["downloads"; "downloads\a_new_song.mp3";
                  "downloads\z_old_song.mp3"];
     listing := [("downloads", ["a_new_song.mp3"; "z_old_song.mp3"])];
     ctime := [("downloads\a_new_song.mp3", 2000%Z);
               ("downloads\z_old_song.mp3", 1000%Z)];
     ffmpeg := Return (mkCompleted 0 "ffmpeg version N" "");
     ytdlp := Return (mkCompleted 0 (line "[download] 100% of 3.21MiB") "");
     download := Return tt;
     unpacked := [] |}.

(** No marker in the output; the folder lists [gone.mp3], a symbolic link
    whose target was removed: [os.listdir] names it, [os.path.exists]
    follows the link and answers [False]. *)
Definition dangling_link : state :=
  {| system := "Linux"; frozen := false; here := "/home/u/app";
     existing := ["downloads"];
     listing := [("downloads", ["gone.mp3"])];
     ctime := [];
     ffmpeg := Return (mkCompleted 0 "ffmpeg version N" "");
     ytdlp := Return (mkCompleted 0 (line "[download] 100% of 3.21MiB") "");
     download := Return tt;
     unpacked := [] |}.

(** No marker and an empty folder. *)
Definition empty_folder : state :=
  {| system := "Linux"; frozen := false; here := "/home/u/app";
     existing := ["downloads"];
     listing := [("downloads", ["notes.txt"])];
     ctime := [];
     ffmpeg := Return (mkCompleted 0 "ffmpeg version N" "");
     ytdlp := Return (mkCompleted 0 (line "[download] 100% of 3.21MiB") "");
     download := Return tt;
     unpacked := [] |}.

(** A Linux host without the transcoder: scenario D. *)
Definition linux_no_ffmpeg : state :=
  {| system := "Linux"; frozen := false; here := "/home/u/app";
     existing := []; listing := []; ctime := [];
     ffmpeg := Raise (not_found "ffmpeg");
     ytdlp := Raise (not_found "yt-dlp");
     download := Return tt;
     unpacked := [] |}.

(** A Windows host without the transcoder; the archive unpacks to a tree
    with [bin\ffmpeg.exe]: scenario C. *)
Definition windows_no_ffmpeg : state :=
  {| system := "Windows"; frozen := true; here := "C:\app";
     existing := []; listing := []; ctime := [];
     ffmpeg := Raise (not_found "ffmpeg");
     ytdlp := Raise (not_found "yt-dlp");
     download := Return tt;
     unpacked := [("C:\app\temp", ["build"], ["ffmpeg.zip"]);
                  ("C:\app\temp\build", ["bin"], ["LICENSE.txt"]);
                  ("C:\app\temp\build\bin", [], ["ffmpeg.exe"; "ffprobe.exe"])] |}.

(** The same host, but the archive holds no [ffmpeg.exe]. *)
Definition windows_other_archive : state :=
  {| system := "Windows"; frozen := true; here := "C:\app";
     existing := []; listing := []; ctime := [];
     ffmpeg := Raise (not_found "ffmpeg");
     ytdlp := Raise (not_found "yt-dlp");
     download := Return tt;
     unpacked := [("C:\app\temp", ["build"], ["ffmpeg.zip"]);
                  ("C:\app\temp\build", [], ["LICENSE.txt"; "README.txt"])] |}.

(** The marker with no space behind it, in a folder that holds a file. *)
Definition marker_without_space : state :=
  {| system := "Linux"; frozen := false; here := "/home/u/app";
     existing := ["downloads"; "downloads/song.mp3"];
     listing := [("downloads", ["song.mp3"])];
     ctime := [("downloads/song.mp3", 500%Z)];
     ffmpeg := Return (mkCompleted 0 "ffmpeg version N" "");
     ytdlp := Return (mkCompleted 0
                (line "[download] 100% of 3.21MiB"
                 ++ line "[ExtractAudio] Destination:downloads/song.mp3")
                "");
     download := Return tt;
     unpacked := [] |}.

(** A Linux host, packaged or not, given by what its two tools do. *)
Definition linux_tools (packaged : bool)
    (ffmpeg_does ytdlp_does : outcome CompletedProcess) : state :=
  {| system := "Linux"; frozen := packaged; here := "/home/u/app";
     existing := []; listing := []; ctime := [];
     ffmpeg := ffmpeg_does;
     ytdlp := ytdlp_does;
     download := Return tt;
     unpacked := [] |}.

Definition answers (code : Z) : outcome CompletedProcess :=
  Return (mkCompleted code "" "").

Definition permission_denied (what : string) : exn :=
  mkExn PermissionError ("[Errno 13] Permission denied: '" ++ what ++ "'").


(** A Windows host without the transcoder and without a network. *)
Definition windows_offline : state :=
  {| system := "Windows"; frozen := true; here := "C:\app";
     existing := []; listing := []; ctime := [];
     ffmpeg := Raise (not_found "ffmpeg");
     ytdlp := Raise (not_found "yt-dlp");
     download := Raise (mkExn URLError "<urlopen error [Errno 11001] getaddrinfo failed>");
     unpacked := [] |}.

End Toy.

(* ================================================================== *)
(** ** The command-line entry point *)

(** What the entry point needs beyond [Host]: the interpreter's version
    string and the console. *)
Record Console (St : Type) : Type := mkConsole {
  sys_version : St -> string;
  (* input(prompt): the line typed, without its line break; EOFError when
     standard input is exhausted *)
  console_input : string -> St -> outcome string * St
}.
Arguments sys_version {St}.
Arguments console_input {St}.

(** The trace of the entry point: the records of the functions it calls,
    and its own prompts. *)
Inductive console_event : Type :=
| Ran (e : event)
| Input (prompt : string).

(** How a run of the entry point ends: it reaches the end of the block, an
    exception is left uncaught, or [sys.exit(code)] is called. *)
Inductive ending (A : Type) : Type :=
| Done (a : A)
| Uncaught (e : exn)
| SysExit (code : Z).
Arguments Done {A} a.
Arguments Uncaught {A} e.
Arguments SysExit {A} code.

Section Script.
Context {St : Type}.

Definition P (A : Type) : Type :=
  St * list console_event -> ending A * (St * list console_event).

Definition pret {A} (a : A) : P A := fun w => (Done a, w).

Definition pbind {A B} (m : P A) (k : A -> P B) : P B :=
  fun w =>
    match m w with
    | (Done a, w') => k a w'
    | (Uncaught e, w') => (Uncaught e, w')
    | (SysExit code, w') => (SysExit code, w')
    end.

(** [sys.exit(code)]: [SystemExit] is no [Exception]; nothing in the block
    catches it. *)
Definition sys_exit {A} (code : Z) : P A := fun w => (SysExit code, w).

(** A call of one of the functions above: its records are appended to the
    trace of the entry point. *)
Definition lift {A} (m : M St A) : P A :=
  fun w =>
    match m (fst w, []) with
    | (Return a, (s', evs)) => (Done a, (s', (snd w ++ map Ran evs)%list))
    | (Raise e, (s', evs)) => (Uncaught e, (s', (snd w ++ map Ran evs)%list))
    end.

(** [try: body / except FileNotFoundError: handler] *)
Definition try_except_FileNotFoundError {A} (body : P A) (handler : P A) : P A :=
  fun w =>
    match body w with
    | (Uncaught e, w') =>
        match exc_type e with
        | FileNotFoundError => handler w'
        | _ => (Uncaught e, w')
        end
    | r => r
    end.

Definition run_script {A} (m : P A) (s : St)
  : ending A * (St * list console_event) := m (s, []).
End Script.
Arguments P : clear implicits.

Notation "x <~ m ;; k" := (pbind m (fun x => k))
  (at level 100, m at next level, right associativity) : py_scope.
Notation "m ;;~ k" := (pbind m (fun _ => k))
  (at level 100, right associativity) : py_scope.

Section EntryPoint.
Context {St : Type} (H : Host St) (C : Console St).

(** [input(prompt)] *)
Definition input (prompt : string) : P St string :=
  fun w =>
    match console_input C prompt (fst w) with
    | (Return text, s') => (Done text, (s', (snd w ++ [Input prompt])%list))
    | (Raise e, s') => (Uncaught e, (s', (snd w ++ [Input prompt])%list))
    end.

(** run.py lines 128-147: the two tools are looked for, and fetched where
    the block knows how. *)
Definition check_tools : P St unit :=
  frozen <~ lift (query (sys_frozen H)) ;;
  if frozen
  then
    lift (print "Running as bundled executable") ;;~
    installed <~ lift (ensure_ffmpeg_installed H) ;;
    if negb installed
    then input "Press Enter to exit..." ;;~ sys_exit 1
    else pret tt
  else
    try_except_FileNotFoundError
      (lift (subprocess_run H ["yt-dlp"; "--version"] false) ;;~
       pret tt)
      (lift (print "yt-dlp is not installed. Installing now...") ;;~
       python <~ lift (query (sys_executable H)) ;;
       lift (subprocess_run H [python; "-m"; "pip"; "install"; "yt-dlp"] true) ;;~
       lift (print "yt-dlp installed successfully.")) ;;~
    installed <~ lift (ensure_ffmpeg_installed H) ;;
    if negb installed
    then input "Press Enter to exit..." ;;~ sys_exit 1
    else pret tt.

(** run.py lines 154-157: the report on the result. *)
Definition report (result : option string) : M St unit :=
  match result with
  | Some p =>
      if PyStr.truthy p
      then print ("Success! File saved to: " ++ p)
      else print "Download failed. Please check the errors above."
  | None => print "Download failed. Please check the errors above."
  end.

(** run.py lines 149-160: the URL is asked for, fetched and reported on. *)
Definition converse : P St unit :=
  lift (print "Make sure you have ffmpeg installed (brew install ffmpeg)") ;;~
  youtube_url <~ input "Enter YouTube video URL: " ;;
  result <~ lift (download_youtube_audio H youtube_url "downloads") ;;
  lift (report result) ;;~
  input "Press Enter to exit..." ;;~
  pret tt.

(** run.py lines 124-160: the block under [if __name__ == "__main__"]. *)
Definition main : P St unit :=
  lift (print "YouTube to MP3 Downloader") ;;~
  version <~ lift (query (sys_version C)) ;;
  lift (print ("Python version: " ++ version)) ;;~
  check_tools ;;~
  converse.

(** The records with which every run of the block starts (lines 125-126). *)
Definition banner (s : St) : list console_event :=
  [ Ran (Print "YouTube to MP3 Downloader");
    Ran (Print ("Python version: " ++ sys_version C s)) ].

End EntryPoint.

(** The command of line 139. *)
Definition ytdlp_version_command : list string := ["yt-dlp"; "--version"].

(** A console for the concrete host: the user types [url] at the URL prompt
    and an empty line at any other. *)
Definition toy_console (url : string) : Console Toy.state :=
  {| sys_version := fun _ => "3.11.4 (main)";
     console_input := fun prompt s =>
       (Return (if prompt =? "Enter YouTube video URL: " then url else ""), s) |}.


(** Unfolds the monadic plumbing of a goal down to the host operations. *)
Ltac unfold_monad :=
  unfold exec, result_of, state_of, trace_of, try_except, try_except_when,
    bind, print, query, query_exn, command, ret, raise;
  cbn [fst snd].

Ltac norm_trace := rewrite <- ?app_assoc; cbn [app].

(* ================================================================== *)
(** ** Facts about the string methods *)

Module PyStrFacts.
Import PyStr.

Lemma startswith_refl_app (p s : string) : startswith p (p ++ s) = true.
Proof.
  induction p as [|c p IH]; simpl; [reflexivity|].
  now rewrite Ascii.eqb_refl, IH.
Qed.

Lemma contains_tail (sub : string) (c : ascii) (s : string) :
  contains sub (String c s) = false ->
  startswith sub (String c s) = false /\ contains sub s = false.
Proof.
  simpl contains. intros E. apply orb_false_elim in E. exact E.
Qed.

Lemma rev_append_rev_append (a b c : string) :
  rev_append (rev_append a b) c = rev_append b (a ++ c).
Proof.
  revert b c. induction a as [|x a IH]; intros b c; simpl; [reflexivity|].
  now rewrite IH.
Qed.

Lemma rev_rev_append (a : string) : rev (rev_append a EmptyString) = a.
Proof.
  unfold rev. rewrite rev_append_rev_append. simpl.
  induction a as [|x a IH]; simpl; congruence.
Qed.

(** Characters owed to a separator already matched are passed over. *)
Lemma split_go_skip (sep x rest cur : string) :
  split_go sep (String.length x) cur (x ++ rest) = split_go sep 0 cur rest.
Proof.
  induction x as [|c x IH]; simpl; [reflexivity | exact IH].
Qed.

(** A string without the separator is a single field. *)
Lemma split_go_absent (sep s cur : string) :
  contains sep s = false ->
  split_go sep 0 cur s = [rev_append cur s].
Proof.
  revert cur. induction s as [|c s IH]; intros cur E.
  - reflexivity.
  - destruct (contains_tail _ _ _ E) as [E1 E2].
    cbn [split_go]. rewrite E1. rewrite (IH _ E2). reflexivity.
Qed.

Lemma split_absent (sep s : string) :
  contains sep s = false -> split sep s = [s].
Proof.
  intros E. unfold split. now rewrite split_go_absent.
Qed.

(** Scanning up to the first occurrence of the separator: [pre] is cut off
    as a field and the scan resumes behind the separator. *)
Lemma split_go_first (sep pre rest cur : string) :
  sep <> EmptyString ->
  (forall a b, pre = a ++ b -> b <> EmptyString ->
               startswith sep (b ++ sep ++ rest) = false) ->
  split_go sep 0 cur (pre ++ sep ++ rest)
  = rev (rev_append pre cur) :: split_go sep 0 EmptyString rest.
Proof.
  intros Hsep. revert cur.
  induction pre as [|c pre IH]; intros cur Hfirst.
  - destruct sep as [|c0 sep']; [congruence|].
    change (EmptyString ++ String c0 sep' ++ rest)
      with (String c0 (sep' ++ rest)).
    cbn [split_go].
    change (String c0 (sep' ++ rest)) with (String c0 sep' ++ rest).
    rewrite startswith_refl_app.
    replace (String.length (String c0 sep') - 1) with (String.length sep')
      by (simpl; lia).
    rewrite split_go_skip. reflexivity.
  - change (String c pre ++ sep ++ rest) with (String c (pre ++ sep ++ rest)).
    cbn [split_go].
    change (String c (pre ++ sep ++ rest)) with (String c pre ++ sep ++ rest).
    rewrite (Hfirst EmptyString (String c pre) eq_refl) by discriminate.
    rewrite IH; [reflexivity|].
    intros a b E Hb. apply (Hfirst (String c a) b); [|exact Hb].
    simpl. now rewrite E.
Qed.

(** [(pre + sep + rest).split(sep) == [pre] + rest.split(sep)] when the
    occurrence after [pre] is the first one. *)
Lemma split_first (sep pre rest : string) :
  sep <> EmptyString ->
  (forall a b, pre = a ++ b -> b <> EmptyString ->
               startswith sep (b ++ sep ++ rest) = false) ->
  split sep (pre ++ sep ++ rest) = pre :: split sep rest.
Proof.
  intros Hsep Hfirst. unfold split.
  rewrite split_go_first by assumption.
  now rewrite rev_rev_append.
Qed.

End PyStrFacts.

(* ================================================================== *)
(** ** Facts about the monad *)

Section MonadFacts.
Context {St : Type}.

Lemma bind_Return {A B} (m : M St A) (k : A -> M St B) w a w' :
  m w = (Return a, w') -> bind m k w = k a w'.
Proof. intros E. unfold bind. now rewrite E. Qed.

Lemma bind_Raise {A B} (m : M St A) (k : A -> M St B) w e w' :
  m w = (Raise e, w') -> bind m k w = (Raise e, w').
Proof. intros E. unfold bind. now rewrite E. Qed.

(** A [try] whose handler always returns never raises. *)
Lemma try_except_total {A} (body : M St A) handler :
  (forall e w, exists a w', handler e w = (Return a, w')) ->
  forall w, exists a w', try_except body handler w = (Return a, w').
Proof.
  intros Hh w. unfold try_except.
  destruct (body w) as [[a|e] w']; [now exists a, w' | apply Hh].
Qed.
End MonadFacts.

(* ================================================================== *)
(** ** Facts about the scan for the marker line *)

Lemma scan_destination_no_marker (output_lines : list string) :
  (forall l, In l output_lines -> PyStr.contains MARKER l = false) ->
  scan_destination output_lines = Return None.
Proof.
  induction output_lines as [|l rest IH]; intros Hno; [reflexivity|].
  cbn [scan_destination]. rewrite (Hno l) by now left.
  apply IH. intros l' Hl'. apply Hno. now right.
Qed.

Lemma scan_destination_first (before after : list string) (line : string) :
  (forall l, In l before -> PyStr.contains MARKER l = false) ->
  PyStr.contains MARKER line = true ->
  scan_destination (before ++ line :: after)
  = match destination_of line with
    | Return p => Return (Some p)
    | Raise e => Raise e
    end.
Proof.
  induction before as [|l before IH]; intros Hno Hline.
  - cbn [app scan_destination]. now rewrite Hline.
  - cbn [app scan_destination]. rewrite (Hno l) by now left.
    apply IH; [|exact Hline]. intros l' Hl'. apply Hno. now right.
Qed.

(** yt-dlp's own line, marker first: the destination is the rest of the
    line without surrounding white space. *)
Lemma destination_of_marker_line (rest : string) :
  PyStr.contains MARKER_SEP rest = false ->
  destination_of (MARKER_SEP ++ rest) = Return (PyStr.strip rest).
Proof.
  intros E. unfold destination_of.
  change (MARKER_SEP ++ rest) with (EmptyString ++ MARKER_SEP ++ rest).
  rewrite PyStrFacts.split_first.
  - rewrite (PyStrFacts.split_absent _ _ E). reflexivity.
  - discriminate.
  - intros a b Eab Hb. destruct a; destruct b; try discriminate. congruence.
Qed.

(** A line with the marker but no space behind it has no second field. *)
Lemma destination_of_no_space :
  PyStr.contains MARKER "[ExtractAudio] Destination:song.mp3" = true
  /\ destination_of "[ExtractAudio] Destination:song.mp3"
     = Raise (mkExn IndexError "list index out of range").
Proof. split; reflexivity. Qed.

(* ================================================================== *)
(** ** The download orchestrator *)

Section DownloadFacts.
Context {St : Type} (H : Host St).

(** The folder step leaves at most one record in the trace and raises
    only what [os.makedirs] raises. *)
Lemma ensure_output_folder_cases (output_folder : string) (s : St) :
  (os_path_exists H output_folder s = true
   /\ ensure_output_folder H output_folder (s, []) = (Return tt, (s, [])))
  \/ (os_path_exists H output_folder s = false
      /\ ensure_output_folder H output_folder (s, [])
         = (fst (os_makedirs H output_folder false s),
            (snd (os_makedirs H output_folder false s),
             [Makedirs output_folder]))).
Proof.
  unfold ensure_output_folder. unfold_monad.
  destruct (os_path_exists H output_folder s); [left | right];
    split; try reflexivity.
  cbn. now destruct (os_makedirs H output_folder false s).
Qed.

(** Everything behind the folder step is inside the [try]: from there on
    the function returns. *)
Lemma download_try_returns (url output_folder : string) w :
  exists r w',
    try_except (download_body H url output_folder) unexpected_error w
    = (Return r, w').
Proof.
  apply try_except_total. intros e w0. unfold unexpected_error.
  unfold_monad. eauto.
Qed.

(** The function raises exactly when the folder step does. *)
Lemma download_raises_iff (url output_folder : string) (s : St) (e : exn) :
  result_of (exec (download_youtube_audio H url output_folder) s) = Raise e
  <-> result_of (exec (ensure_output_folder H output_folder) s) = Raise e.
Proof.
  unfold download_youtube_audio, exec, result_of.
  unfold bind at 1.
  destruct (ensure_output_folder H output_folder (s, [])) as [[[]|e0] w] eqn:E.
  - destruct (download_try_returns url output_folder w) as (r & w' & Et).
    rewrite Et. cbn. split; discriminate.
  - cbn. split; intros E'; injection E' as ->; reflexivity.
Qed.

(** The run of the function once the folder step has returned and the
    subprocess has completed: the prelude, then lines 93-118 under the
    handler of line 120. *)
Lemma download_after_subprocess (url output_folder : string)
    (s s1 s2 : St) (t1 : list event) (cp : CompletedProcess) :
  ensure_output_folder H output_folder (s, []) = (Return tt, (s1, t1)) ->
  subprocess_exec H (download_command H s1 url output_folder) s1
    = (Return cp, s2) ->
  exec (download_youtube_audio H url output_folder) s
  = try_except
      (if negb (returncode cp =? 0)%Z
       then print ("Error downloading: " ++ stderr cp) ;;; ret None
       else
         mp3_file <- query_exn (fun _ =>
                       scan_destination (PyStr.split PyStr.NL (stdout cp))) ;;
         finish_download H output_folder mp3_file)
      unexpected_error
      (s2, (t1 ++ prelude H s1 url output_folder)%list).
Proof.
  intros Hfolder Hrun.
  unfold exec, download_youtube_audio.
  rewrite (bind_Return _ _ _ _ _ Hfolder).
  unfold download_body, subprocess_run, prelude.
  unfold try_except, bind, print, query, command, ret. cbn [fst snd].
  rewrite Hrun. cbn [andb]. norm_trace. reflexivity.
Qed.

End DownloadFacts.

Lemma startswith_app_l (p q s : string) :
  PyStr.startswith (p ++ q) s = true -> PyStr.startswith p s = true.
Proof.
  revert s. induction p as [|c p IH]; intros s E; [reflexivity|].
  destruct s as [|d s]; [discriminate|]. simpl in *.
  apply andb_true_iff in E as [E1 E2]. rewrite E1. now apply IH.
Qed.

Lemma contains_app_l (p q s : string) :
  PyStr.contains (p ++ q) s = true -> PyStr.contains p s = true.
Proof.
  induction s as [|d s IH]; intros E.
  - simpl in *. rewrite orb_false_r in *. now apply startswith_app_l in E.
  - cbn [PyStr.contains] in *. apply orb_true_iff in E as [E|E].
    + now rewrite (startswith_app_l _ _ _ E).
    + rewrite (IH E). apply orb_true_r.
Qed.

(** A line that splits into two fields or more holds the separator, hence
    the marker. *)
Lemma two_fields_marker (line pre field : string) (more : list string) :
  PyStr.split MARKER_SEP line = pre :: field :: more ->
  PyStr.contains MARKER line = true.
Proof.
  intros E.
  destruct (PyStr.contains MARKER_SEP line) eqn:C.
  - apply (contains_app_l MARKER " "). exact C.
  - rewrite (PyStrFacts.split_absent _ _ C) in E. discriminate.
Qed.

Section DownloadClaims.
Context {St : Type} (H : Host St).

(** C4.  When the retrieval tool exits with a non-zero status, the
    function prints the captured standard error behind
    ["Error downloading: "], returns [None] and raises nothing. *)
Theorem download_nonzero_exit_returns_none
    (url output_folder : string) (s s1 s2 : St) (t1 : list event)
    (cp : CompletedProcess) :
  ensure_output_folder H output_folder (s, []) = (Return tt, (s1, t1)) ->
  subprocess_exec H (download_command H s1 url output_folder) s1
    = (Return cp, s2) ->
  returncode cp <> 0%Z ->
  exec (download_youtube_audio H url output_folder) s
  = (Return None,
     (s2, (t1 ++ prelude H s1 url output_folder
              ++ [Print ("Error downloading: " ++ stderr cp)])%list)).
Proof.
  intros Hfolder Hrun Hrc.
  rewrite (download_after_subprocess H _ _ _ _ _ _ _ Hfolder Hrun).
  apply Z.eqb_neq in Hrc. rewrite Hrc. cbn [negb].
  unfold_monad. norm_trace. reflexivity.
Qed.

(** C6.  Exit status 0, no line of the captured output contains the
    marker, and the output folder lists no name ending in [.mp3] (or
    cannot be listed at all): the function prints a message and returns
    [None]. *)
Theorem download_no_marker_no_mp3_returns_none
    (url output_folder : string) (s s1 s2 : St) (t1 : list event)
    (cp : CompletedProcess) :
  ensure_output_folder H output_folder (s, []) = (Return tt, (s1, t1)) ->
  subprocess_exec H (download_command H s1 url output_folder) s1
    = (Return cp, s2) ->
  returncode cp = 0%Z ->
  (forall l, In l (PyStr.split PyStr.NL (stdout cp)) ->
             PyStr.contains MARKER l = false) ->
  match os_listdir H output_folder s2 with
  | Return names =>
      forall f, In f names -> PyStr.endswith f ".mp3" = false
  | Raise _ => True
  end ->
  exec (download_youtube_audio H url output_folder) s
  = (Return None,
     (s2, (t1 ++ prelude H s1 url output_folder
              ++ [Print match os_listdir H output_folder s2 with
                        | Return _ => "Download completed but MP3 file not found."
                        | Raise e => "Unexpected error: " ++ exc_str e
                        end])%list)).
Proof.
  intros Hfolder Hrun Hrc Hno Hlist.
  rewrite (download_after_subprocess H _ _ _ _ _ _ _ Hfolder Hrun).
  rewrite Hrc. cbn [Z.eqb negb].
  unfold finish_download, locate_mp3, needs_fallback, unexpected_error.
  unfold_monad. rewrite (scan_destination_no_marker _ Hno). cbn [fst snd].
  destruct (os_listdir H output_folder s2) as [names|e].
  - assert (E : mp3_candidates H output_folder names = []).
    { unfold mp3_candidates.
      replace (filter (fun f => PyStr.endswith f ".mp3") names) with (@nil string);
        [reflexivity|].
      symmetry. clear - Hlist. induction names as [|f names IH]; [reflexivity|].
      cbn [filter]. rewrite (Hlist f) by now left.
      apply IH. intros g Hg. apply Hlist. now right. }
    rewrite E. cbn. norm_trace. reflexivity.
  - cbn. norm_trace. reflexivity.
Qed.

(** C1, amended.  Exit status 0; [line] is the first line of the captured
    output that contains the marker; split at the marker and one space it
    has a second field [field]; [field.strip()] is not empty and names a
    path that exists.  Then the function returns exactly
    [field.strip()]. *)
Theorem download_returns_first_marked_path
    (url output_folder : string) (s s1 s2 : St) (t1 : list event)
    (cp : CompletedProcess) (before after : list string)
    (line pre field : string) (more : list string) :
  ensure_output_folder H output_folder (s, []) = (Return tt, (s1, t1)) ->
  subprocess_exec H (download_command H s1 url output_folder) s1
    = (Return cp, s2) ->
  returncode cp = 0%Z ->
  PyStr.split PyStr.NL (stdout cp) = (before ++ line :: after)%list ->
  (forall l, In l before -> PyStr.contains MARKER l = false) ->
  PyStr.split MARKER_SEP line = pre :: field :: more ->
  PyStr.strip field <> EmptyString ->
  os_path_exists H (PyStr.strip field) s2 = true ->
  exec (download_youtube_audio H url output_folder) s
  = (Return (Some (PyStr.strip field)),
     (s2, (t1 ++ prelude H s1 url output_folder
              ++ [Print ("Downloaded and converted to MP3: "
                         ++ PyStr.strip field)])%list)).
Proof.
  intros Hfolder Hrun Hrc Hlines Hbefore Hsplit Hne Hex.
  rewrite (download_after_subprocess H _ _ _ _ _ _ _ Hfolder Hrun).
  rewrite Hrc. cbn [Z.eqb negb].
  rewrite Hlines.
  rewrite (scan_destination_first _ _ _ Hbefore (two_fields_marker _ _ _ _ Hsplit)).
  unfold destination_of. rewrite Hsplit. cbn [index_1 nth_error].
  unfold finish_download, locate_mp3, needs_fallback.
  destruct (PyStr.strip field) as [|c p] eqn:Ep; [congruence|].
  unfold_monad. cbn [PyStr.truthy negb]. cbn [fst snd].
  rewrite Hex. cbn. norm_trace. reflexivity.
Qed.

(** C10.  When [line] is the first line of the captured output that
    contains the marker, the run continues from line 104 applied to
    [line] alone: whatever follows it in the output, further marker lines
    included, has no part in the result. *)
Theorem download_uses_first_marker_line_only
    (url output_folder : string) (s s1 s2 : St) (t1 : list event)
    (cp : CompletedProcess) (before after : list string) (line : string) :
  ensure_output_folder H output_folder (s, []) = (Return tt, (s1, t1)) ->
  subprocess_exec H (download_command H s1 url output_folder) s1
    = (Return cp, s2) ->
  returncode cp = 0%Z ->
  PyStr.split PyStr.NL (stdout cp) = (before ++ line :: after)%list ->
  (forall l, In l before -> PyStr.contains MARKER l = false) ->
  PyStr.contains MARKER line = true ->
  scan_destination (PyStr.split PyStr.NL (stdout cp))
  = scan_destination [line]
  /\ exec (download_youtube_audio H url output_folder) s
     = try_except
         (p <- query_exn (fun _ => destination_of line) ;;
          finish_download H output_folder (Some p))
         unexpected_error
         (s2, (t1 ++ prelude H s1 url output_folder)%list).
Proof.
  intros Hfolder Hrun Hrc Hlines Hbefore Hline.
  assert (Escan : scan_destination (PyStr.split PyStr.NL (stdout cp))
                  = match destination_of line with
                    | Return p => Return (Some p)
                    | Raise e => Raise e
                    end).
  { rewrite Hlines. now apply scan_destination_first. }
  split.
  - rewrite Escan. cbn [scan_destination]. now rewrite Hline.
  - rewrite (download_after_subprocess H _ _ _ _ _ _ _ Hfolder Hrun).
    rewrite Hrc. cbn [Z.eqb negb]. rewrite Escan.
    unfold try_except, bind, query_exn. cbn [fst snd].
    now destruct (destination_of line).
Qed.

(** What the fallback of lines 108-112 returns: the last [.mp3] name in
    the order of [os.listdir], joined to the folder. *)
Lemma download_fallback_returns_last_listed
    (url output_folder : string) (s s1 s2 : St) (t1 : list event)
    (cp : CompletedProcess) (names : list string) (f : string) :
  ensure_output_folder H output_folder (s, []) = (Return tt, (s1, t1)) ->
  subprocess_exec H (download_command H s1 url output_folder) s1
    = (Return cp, s2) ->
  returncode cp = 0%Z ->
  (forall l, In l (PyStr.split PyStr.NL (stdout cp)) ->
             PyStr.contains MARKER l = false) ->
  os_listdir H output_folder s2 = Return names ->
  last_item (mp3_candidates H output_folder names) = Some f ->
  result_of (exec (download_youtube_audio H url output_folder) s)
  = Return (Some f).
Proof.
  intros Hfolder Hrun Hrc Hno Hlist Hlast.
  rewrite (download_after_subprocess H _ _ _ _ _ _ _ Hfolder Hrun).
  rewrite Hrc. cbn [Z.eqb negb].
  unfold finish_download, locate_mp3, needs_fallback.
  unfold_monad. rewrite (scan_destination_no_marker _ Hno). cbn [fst snd].
  rewrite Hlist, Hlast. reflexivity.
Qed.

Lemma last_item_In (l : list string) (x : string) :
  last_item l = Some x -> In x l.
Proof.
  induction l as [|y l IH]; [discriminate|].
  destruct l as [|z l]; cbn [last_item].
  - intros [= ->]. now left.
  - intros E. right. apply IH. exact E.
Qed.

(** Where a returned path comes from: it passed the test of line 107, or
    it is one of the candidates built from the folder listing. *)
Lemma download_result_origin (url output_folder : string) (s : St) (p : string) :
  result_of (exec (download_youtube_audio H url output_folder) s)
    = Return (Some p) ->
  os_path_exists H p
    (state_of (exec (download_youtube_audio H url output_folder) s)) = true
  \/ exists names,
       os_listdir H output_folder
         (state_of (exec (download_youtube_audio H url output_folder) s))
       = Return names
       /\ In p (mp3_candidates H output_folder names).
Proof.
  destruct (ensure_output_folder H output_folder (s, []))
    as [[[]|e] [s1 t1]] eqn:Ef.
  - destruct (subprocess_exec H (download_command H s1 url output_folder) s1)
      as [[cp|e] s2] eqn:Er.
    + rewrite (download_after_subprocess H _ _ _ _ _ _ _ Ef Er).
      destruct (returncode cp =? 0)%Z; cbn [negb];
        [|unfold_monad; discriminate].
      unfold finish_download, locate_mp3, needs_fallback, unexpected_error.
      unfold_monad.
      destruct (scan_destination (PyStr.split PyStr.NL (stdout cp)))
        as [[d|]|e]; cbn [fst snd]; [| |discriminate].
      * destruct (PyStr.truthy d); cbn [negb fst snd].
        -- destruct (os_path_exists H d s2) eqn:Ex; cbn [negb fst snd].
           ++ intros [= <-]. left. exact Ex.
           ++ destruct (os_listdir H output_folder s2) as [names|e] eqn:El;
                [|discriminate].
              destruct (last_item (mp3_candidates H output_folder names)) eqn:Ela;
                cbn [fst snd]; [|discriminate].
              intros [= <-]. right. exists names. split; [exact El|].
              now apply last_item_In.
        -- destruct (os_listdir H output_folder s2) as [names|e] eqn:El;
             [|discriminate].
           destruct (last_item (mp3_candidates H output_folder names)) eqn:Ela;
             cbn [fst snd]; [|discriminate].
           intros [= <-]. right. exists names. split; [exact El|].
           now apply last_item_In.
      * destruct (os_listdir H output_folder s2) as [names|e] eqn:El;
          [|discriminate].
        destruct (last_item (mp3_candidates H output_folder names)) eqn:Ela;
          cbn [fst snd]; [|discriminate].
        intros [= <-]. right. exists names. split; [exact El|].
        now apply last_item_In.
    + unfold exec, download_youtube_audio.
      rewrite (bind_Return _ _ _ _ _ Ef).
      unfold download_body, subprocess_run, unexpected_error.
      unfold_monad. rewrite Er. cbn. discriminate.
  - unfold exec, download_youtube_audio.
    rewrite (bind_Raise _ _ _ _ _ Ef). cbn. discriminate.
Qed.

End DownloadClaims.

(* ------------------------------------------------------------------ *)
(** *** The orchestrator on concrete hosts *)

(** Scenario A: the marker line names [downloads/song.mp3], which exists. *)
Lemma download_returns_first_marked_path_scenario_A :
  exec (download_youtube_audio Toy.posix Toy.video "downloads") Toy.scenario_A
  = (Return (Some "downloads/song.mp3"),
     (Toy.scenario_A,
      prelude Toy.posix Toy.scenario_A Toy.video "downloads"
        ++ [Print "Downloaded and converted to MP3: downloads/song.mp3"])%list).
Proof.
  refine (download_returns_first_marked_path Toy.posix Toy.video "downloads"
            Toy.scenario_A Toy.scenario_A Toy.scenario_A []
            (mkCompleted 0 _ "")
            ["[youtube] Extracting URL"; "[download] 100% of 3.21MiB"]
            ["Deleting original file downloads/song.webm"; ""]
            "[ExtractAudio] Destination: downloads/song.mp3"
            "" "downloads/song.mp3" []
            eq_refl eq_refl eq_refl eq_refl _ eq_refl _ eq_refl).
  - intros l [<-|[<-|[]]]; reflexivity.
  - simpl. discriminate.
Defined.

(** Scenario B: exit status 1 with ["video unavailable"] on standard
    error. *)
Lemma download_nonzero_exit_scenario_B :
  exec (download_youtube_audio Toy.posix Toy.video "downloads") Toy.scenario_B
  = (Return None,
     (Toy.scenario_B,
      prelude Toy.posix Toy.scenario_B Toy.video "downloads"
        ++ [Print "Error downloading: video unavailable"])%list).
Proof.
  refine (download_nonzero_exit_returns_none Toy.posix Toy.video "downloads"
            Toy.scenario_B Toy.scenario_B Toy.scenario_B []
            (mkCompleted 1 "" "video unavailable") eq_refl eq_refl _).
  simpl. discriminate.
Defined.

(** No marker and only [notes.txt] in the folder. *)
Lemma download_no_marker_no_mp3_empty_folder :
  exec (download_youtube_audio Toy.posix Toy.video "downloads") Toy.empty_folder
  = (Return None,
     (Toy.empty_folder,
      prelude Toy.posix Toy.empty_folder Toy.video "downloads"
        ++ [Print "Download completed but MP3 file not found."])%list).
Proof.
  refine (download_no_marker_no_mp3_returns_none Toy.posix Toy.video "downloads"
            Toy.empty_folder Toy.empty_folder Toy.empty_folder []
            (mkCompleted 0 (Toy.line "[download] 100% of 3.21MiB") "")
            eq_refl eq_refl eq_refl _ _).
  - intros l Hl. vm_compute in Hl. destruct Hl as [<-|[<-|[]]]; reflexivity.
  - simpl. intros f [<-|[]]. reflexivity.
Defined.

(** Two marker lines: the run is that of the first one alone. *)
Lemma download_uses_first_marker_line_only_two_markers :
  scan_destination
    ["[ExtractAudio] Destination: downloads/a.mp3";
     "[ExtractAudio] Destination: downloads/b.mp3"; ""]
  = scan_destination ["[ExtractAudio] Destination: downloads/a.mp3"]
  /\ exec (download_youtube_audio Toy.posix Toy.video "downloads") Toy.two_markers
     = try_except
         (p <- query_exn (fun _ =>
                 destination_of "[ExtractAudio] Destination: downloads/a.mp3") ;;
          finish_download Toy.posix "downloads" (Some p))
         unexpected_error
         (Toy.two_markers,
          prelude Toy.posix Toy.two_markers Toy.video "downloads").
Proof.
  refine (download_uses_first_marker_line_only Toy.posix Toy.video "downloads"
            Toy.two_markers Toy.two_markers Toy.two_markers []
            (mkCompleted 0 _ "")
            [] ["[ExtractAudio] Destination: downloads/b.mp3"; ""]
            "[ExtractAudio] Destination: downloads/a.mp3"
            eq_refl eq_refl eq_refl eq_refl _ eq_refl).
  intros l [].
Defined.

(** C1 as stated fails.  The captured output has two marker lines; the
    second names [downloads/b.mp3], which exists, yet the function returns
    [downloads/c.mp3]: the first marker line names a missing file, so the
    folder listing decides. *)
Lemma marked_path_of_later_line_not_returned :
  ~ returns_any_marked_path Toy.posix Toy.two_markers Toy.video "downloads".
Proof.
  intros Hclaim.
  specialize (Hclaim Toy.two_markers [] (mkCompleted 0 _ "") Toy.two_markers
                "[ExtractAudio] Destination: downloads/b.mp3" "downloads/b.mp3"
                eq_refl eq_refl eq_refl).
  assert (E : result_of (exec (download_youtube_audio Toy.posix Toy.video
                                 "downloads") Toy.two_markers)
              = Return (Some "downloads/c.mp3")) by reflexivity.
  rewrite E in Hclaim.
  enough (Return (Some "downloads/c.mp3") = Return (Some "downloads/b.mp3"))
    by discriminate.
  apply Hclaim.
  - right. left. reflexivity.
  - exists "", " downloads/b.mp3". split; reflexivity.
  - reflexivity.
Qed.

(** C2 on a concrete folder.  No marker in the output; the folder lists
    [a_new_song.mp3] (created at 2000) before [z_old_song.mp3] (created at
    1000).  The function returns the old file, the last one listed, while
    the most recently created candidate is the new one. *)
Theorem fallback_returns_last_listed_not_newest :
  let r := exec (download_youtube_audio Toy.windows Toy.video "downloads")
             Toy.stale_file in
  let candidates := mp3_candidates Toy.windows "downloads"
                      ["a_new_song.mp3"; "z_old_song.mp3"] in
  os_listdir Toy.windows "downloads" (state_of r)
    = Return ["a_new_song.mp3"; "z_old_song.mp3"]
  /\ result_of r = Return (Some "downloads\z_old_song.mp3")
  /\ most_recently_created Toy.windows (state_of r) candidates
       "downloads\a_new_song.mp3"
  /\ ~ most_recently_created Toy.windows (state_of r) candidates
         "downloads\z_old_song.mp3".
Proof.
  cbv zeta. repeat split.
  - left. reflexivity.
  - intros q [<-|[<-|[]]]; vm_compute; discriminate.
  - intros [_ Hmax].
    specialize (Hmax "downloads\a_new_song.mp3" (or_introl eq_refl)).
    vm_compute in Hmax. apply Hmax. reflexivity.
Qed.

(** C3 on a concrete call.  With the empty string as output folder,
    [os.path.exists] answers [False] and [os.makedirs] raises
    [FileNotFoundError] at line 55, before the [try] is entered: the
    exception leaves the function and nothing is printed. *)
Theorem download_raises_from_folder_creation :
  exec (download_youtube_audio Toy.posix Toy.video "") Toy.scenario_A
  = (Raise (mkExn FileNotFoundError "[Errno 2] No such file or directory: ''"),
     (Toy.scenario_A, [Makedirs ""])).
Proof. reflexivity. Qed.

(** C7 on a concrete folder.  No marker in the output; the folder lists
    [gone.mp3], a link whose target is missing.  The function returns
    [downloads/gone.mp3] although [os.path.exists] rejects it in the state
    the function leaves behind. *)
Theorem fallback_returns_unchecked_entry :
  let r := exec (download_youtube_audio Toy.posix Toy.video "downloads")
             Toy.dangling_link in
  os_listdir Toy.posix "downloads" (state_of r) = Return ["gone.mp3"]
  /\ result_of r = Return (Some "downloads/gone.mp3")
  /\ os_path_exists Toy.posix "downloads/gone.mp3" (state_of r) = false.
Proof. cbv zeta. repeat split. Qed.

(* ================================================================== *)
(** ** The dependency provisioner *)

Section ProvisionerFacts.
Context {St : Type} (H : Host St).

(** With the binary present the function is the probe and nothing
    else. *)
Lemma ensure_ffmpeg_present (s s' : St) (cp : CompletedProcess) :
  subprocess_exec H probe_command s = (Return cp, s') ->
  returncode cp = 0%Z ->
  exec (ensure_ffmpeg_installed H) s
  = (Return true, (s', [SubprocessRun probe_command])).
Proof.
  intros Hrun Hrc. unfold ensure_ffmpeg_installed, subprocess_run.
  unfold_monad. rewrite Hrun, Hrc. reflexivity.
Qed.

(** The inner [try] of lines 22-50 always returns. *)
Lemma fetch_ffmpeg_guarded_returns w :
  exists b w',
    try_except (fetch_ffmpeg H)
      (fun e => print ("Error downloading FFmpeg: " ++ exc_str e) ;;; ret false)
      w
    = (Return b, w').
Proof.
  apply try_except_total. intros e w0. unfold_monad. eauto.
Qed.

(** A failed probe of a class named at line 16 never leaves the function,
    be it raised when the binary is started or by [check=True] for a
    non-zero exit status: whatever the platform and whatever the download
    does, a boolean comes back. *)
Lemma ensure_ffmpeg_returns_on_probe_failure (s : St) (e : exn) w :
  subprocess_run H probe_command true (s, []) = (Raise e, w) ->
  isinstance_probe_failure e = true ->
  exists b w', exec (ensure_ffmpeg_installed H) s = (Return b, w').
Proof.
  intros Hrun He. unfold exec, ensure_ffmpeg_installed.
  unfold try_except_when. rewrite (bind_Raise _ _ _ _ _ Hrun). rewrite He.
  destruct w as [s' t'].
  unfold bind at 1, query. cbn [fst snd].
  destruct (negb (platform_system H s' =? "Windows")).
  - unfold_monad. eauto.
  - unfold bind at 1, print at 1. cbn [fst snd].
    apply fetch_ffmpeg_guarded_returns.
Qed.


(** C9.  Called again in the state a first call left behind, with the
    binary present and invocable there, the function returns [True] and
    its only outward call is the probe: no network access and no
    filesystem write. *)
Theorem ensure_ffmpeg_second_call_no_effects (s : St) :
  ffmpeg_invocable H (state_of (exec (ensure_ffmpeg_installed H) s)) ->
  let second :=
    exec (ensure_ffmpeg_installed H)
      (state_of (exec (ensure_ffmpeg_installed H) s)) in
  result_of second = Return true
  /\ trace_of second = [SubprocessRun probe_command]
  /\ existsb is_network (trace_of second) = false
  /\ existsb is_fs_write (trace_of second) = false.
Proof.
  intros (cp & s' & Hrun & Hrc). cbv zeta.
  rewrite (ensure_ffmpeg_present _ _ _ Hrun Hrc). repeat split.
Qed.

(** On Windows a failed download is reported and answered with [False];
    the temporary directory is left in place. *)
Lemma ensure_ffmpeg_download_fails (s s1 s2 s3 : St) (e e' : exn) :
  subprocess_exec H probe_command s = (Raise e, s1) ->
  isinstance_probe_failure e = true ->
  (platform_system H s1 =? "Windows") = true ->
  os_makedirs H (os_path_join H (module_dir H s1) "temp") true s1
    = (Return tt, s2) ->
  urlretrieve H ffmpeg_url
    (os_path_join H (os_path_join H (module_dir H s1) "temp") "ffmpeg.zip") s2
    = (Raise e', s3) ->
  exec (ensure_ffmpeg_installed H) s
  = (Return false,
     (s3,
      [ SubprocessRun probe_command;
        Print "FFmpeg not found. Downloading...";
        Makedirs (os_path_join H (module_dir H s1) "temp");
        Urlretrieve ffmpeg_url
          (os_path_join H (os_path_join H (module_dir H s1) "temp") "ffmpeg.zip");
        Print ("Error downloading FFmpeg: " ++ exc_str e') ])).
Proof.
  intros Hrun He Hsys Hmk Hnet.
  unfold ensure_ffmpeg_installed, fetch_ffmpeg, subprocess_run.
  unfold_monad. rewrite Hrun, He. cbn [fst snd]. rewrite Hsys. cbn [negb fst snd].
  rewrite Hmk. cbn [fst snd]. rewrite Hnet. reflexivity.
Qed.

End ProvisionerFacts.

(* ------------------------------------------------------------------ *)
(** *** The provisioner on concrete hosts *)


(** Scenario C: Windows without the binary, an archive that holds
    [bin\ffmpeg.exe].  The first call fetches, unpacks, copies and cleans
    up; the binary is invocable afterwards. *)
Lemma ensure_ffmpeg_scenario_C :
  let r := exec (ensure_ffmpeg_installed Toy.windows) Toy.windows_no_ffmpeg in
  result_of r = Return true
  /\ trace_of r
     = [ SubprocessRun probe_command;
         Print "FFmpeg not found. Downloading...";
         Makedirs "C:\app\temp";
         Urlretrieve ffmpeg_url "C:\app\temp\ffmpeg.zip";
         ExtractAll "C:\app\temp\ffmpeg.zip" "C:\app\temp";
         Copy "C:\app\temp\build\bin\ffmpeg.exe" "C:\app";
         Rmtree "C:\app\temp";
         Print "FFmpeg downloaded successfully." ]
  /\ ffmpeg_invocable Toy.windows (state_of r).
Proof.
  cbv zeta. repeat split.
  eexists _, _. split; reflexivity.
Qed.

(** A second call after scenario C: the probe and nothing else. *)
Lemma ensure_ffmpeg_second_call_after_scenario_C :
  let second :=
    exec (ensure_ffmpeg_installed Toy.windows)
      (state_of (exec (ensure_ffmpeg_installed Toy.windows)
                   Toy.windows_no_ffmpeg)) in
  result_of second = Return true
  /\ trace_of second = [SubprocessRun probe_command]
  /\ existsb is_network (trace_of second) = false
  /\ existsb is_fs_write (trace_of second) = false.
Proof.
  refine (ensure_ffmpeg_second_call_no_effects Toy.windows
            Toy.windows_no_ffmpeg _).
  exists (mkCompleted 0 "ffmpeg version N" ""). eexists. split; reflexivity.
Defined.

(** C5 on a concrete archive.  Windows, the binary is missing, the download
    and the unpacking succeed, but no directory of the unpacked tree holds
    [ffmpeg.exe].  The loop of lines 37-42 ends without a copy; the function
    still prints its success message and returns [True], and the binary is
    no more invocable than before. *)
Theorem ensure_ffmpeg_true_without_binary :
  let r := exec (ensure_ffmpeg_installed Toy.windows) Toy.windows_other_archive in
  result_of r = Return true
  /\ trace_of r
     = [ SubprocessRun probe_command;
         Print "FFmpeg not found. Downloading...";
         Makedirs "C:\app\temp";
         Urlretrieve ffmpeg_url "C:\app\temp\ffmpeg.zip";
         ExtractAll "C:\app\temp\ffmpeg.zip" "C:\app\temp";
         Rmtree "C:\app\temp";
         Print "FFmpeg downloaded successfully." ]
  /\ existsb is_copy (trace_of r) = false
  /\ ~ ffmpeg_invocable Toy.windows (state_of r).
Proof.
  cbv zeta. repeat split.
  intros (cp & s' & Hrun & _). discriminate Hrun.
Qed.


(** The text of the exception [check=True] raises, on the probe. *)
Lemma called_process_error_text {St : Type} (H : Host St) :
  exc_str (called_process_error H probe_command 1)
  = "Command '['ffmpeg', '-version']' returned non-zero exit status 1.".
Proof. reflexivity. Qed.

(* ================================================================== *)
(** ** Further behaviour of the download orchestrator *)

Section DownloadBehaviour.
Context {St : Type} (H : Host St).

(** When the retrieval tool cannot be started at all, [subprocess.run]
    raises; the handler of line 120 reports the exception and the function
    returns [None]. *)
Theorem download_subprocess_raises_returns_none
    (url output_folder : string) (s s1 s2 : St) (t1 : list event) (e : exn) :
  ensure_output_folder H output_folder (s, []) = (Return tt, (s1, t1)) ->
  subprocess_exec H (download_command H s1 url output_folder) s1
    = (Raise e, s2) ->
  exec (download_youtube_audio H url output_folder) s
  = (Return None,
     (s2, (t1 ++ prelude H s1 url output_folder
              ++ [Print ("Unexpected error: " ++ exc_str e)])%list)).
Proof.
  intros Hfolder Hrun.
  unfold exec, download_youtube_audio.
  rewrite (bind_Return _ _ _ _ _ Hfolder).
  unfold download_body, subprocess_run, unexpected_error, prelude.
  unfold_monad. rewrite Hrun. cbn [fst snd]. norm_trace. reflexivity.
Qed.

(** The first marker line holds the marker but not the marker followed by
    a space: line 104 raises [IndexError], the folder is not looked at, and
    the function reports the exception and returns [None]. *)
Theorem download_marker_without_space_returns_none
    (url output_folder : string) (s s1 s2 : St) (t1 : list event)
    (cp : CompletedProcess) (before after : list string) (line : string) :
  ensure_output_folder H output_folder (s, []) = (Return tt, (s1, t1)) ->
  subprocess_exec H (download_command H s1 url output_folder) s1
    = (Return cp, s2) ->
  returncode cp = 0%Z ->
  PyStr.split PyStr.NL (stdout cp) = (before ++ line :: after)%list ->
  (forall l, In l before -> PyStr.contains MARKER l = false) ->
  PyStr.contains MARKER line = true ->
  PyStr.contains MARKER_SEP line = false ->
  exec (download_youtube_audio H url output_folder) s
  = (Return None,
     (s2, (t1 ++ prelude H s1 url output_folder
              ++ [Print "Unexpected error: list index out of range"])%list)).
Proof.
  intros Hfolder Hrun Hrc Hlines Hbefore Hline Hsep.
  rewrite (download_after_subprocess H _ _ _ _ _ _ _ Hfolder Hrun).
  rewrite Hrc. cbn [Z.eqb negb]. rewrite Hlines.
  rewrite (scan_destination_first _ _ _ Hbefore Hline).
  unfold destination_of. rewrite (PyStrFacts.split_absent _ _ Hsep).
  unfold unexpected_error. unfold_monad. cbn. norm_trace. reflexivity.
Qed.

(** The first marker line names a path that is empty or does not exist:
    the result is the last [.mp3] name of the folder listing, joined to the
    folder, and [None] when the listing has none. *)
Theorem download_missing_marked_path_falls_back
    (url output_folder : string) (s s1 s2 : St) (t1 : list event)
    (cp : CompletedProcess) (before after : list string)
    (line pre field : string) (more names : list string) :
  ensure_output_folder H output_folder (s, []) = (Return tt, (s1, t1)) ->
  subprocess_exec H (download_command H s1 url output_folder) s1
    = (Return cp, s2) ->
  returncode cp = 0%Z ->
  PyStr.split PyStr.NL (stdout cp) = (before ++ line :: after)%list ->
  (forall l, In l before -> PyStr.contains MARKER l = false) ->
  PyStr.split MARKER_SEP line = pre :: field :: more ->
  PyStr.truthy (PyStr.strip field) && os_path_exists H (PyStr.strip field) s2
    = false ->
  os_listdir H output_folder s2 = Return names ->
  result_of (exec (download_youtube_audio H url output_folder) s)
  = Return (last_item (mp3_candidates H output_folder names)).
Proof.
  intros Hfolder Hrun Hrc Hlines Hbefore Hsplit Hbad Hlist.
  rewrite (download_after_subprocess H _ _ _ _ _ _ _ Hfolder Hrun).
  rewrite Hrc. cbn [Z.eqb negb]. rewrite Hlines.
  rewrite (scan_destination_first _ _ _ Hbefore (two_fields_marker _ _ _ _ Hsplit)).
  unfold destination_of. rewrite Hsplit. cbn [index_1 nth_error].
  unfold finish_download, locate_mp3, needs_fallback.
  unfold_monad.
  destruct (PyStr.truthy (PyStr.strip field)); cbn [andb negb fst snd] in *.
  - rewrite Hbad. cbn [negb fst snd]. rewrite Hlist.
    now destruct (last_item (mp3_candidates H output_folder names)).
  - rewrite Hlist.
    now destruct (last_item (mp3_candidates H output_folder names)).
Qed.

(** The run behind the folder step, whatever the host answers. *)
Lemma download_outline
    (url output_folder : string) (s s1 : St) (t1 : list event) :
  ensure_output_folder H output_folder (s, []) = (Return tt, (s1, t1)) ->
  exists r msg,
    exec (download_youtube_audio H url output_folder) s
    = (Return r,
       (snd (subprocess_exec H (download_command H s1 url output_folder) s1),
        (t1 ++ prelude H s1 url output_folder ++ [Print msg])%list))
    /\ match r with
       | Some p => msg = "Downloaded and converted to MP3: " ++ p
       | None => True
       end.
Proof.
  intros Hfolder.
  destruct (subprocess_exec H (download_command H s1 url output_folder) s1)
    as [[cp|e] s2] eqn:Er; cbn [snd].
  - rewrite (download_after_subprocess H _ _ _ _ _ _ _ Hfolder Er).
    unfold finish_download, locate_mp3, needs_fallback, unexpected_error.
    unfold_monad.
    destruct (returncode cp =? 0)%Z; cbn [negb fst snd].
    + destruct (scan_destination (PyStr.split PyStr.NL (stdout cp)))
        as [[d|]|e]; cbn [fst snd].
      * destruct (PyStr.truthy d); cbn [negb fst snd];
          [destruct (os_path_exists H d s2); cbn [negb fst snd]|];
          try (destruct (os_listdir H output_folder s2) as [names|e];
               [destruct (last_item (mp3_candidates H output_folder names))|];
               cbn [fst snd]);
          eexists _, _; (split; [rewrite <- app_assoc; reflexivity | cbn; trivial]).
      * destruct (os_listdir H output_folder s2) as [names|e];
          [destruct (last_item (mp3_candidates H output_folder names))|];
          cbn [fst snd];
          eexists _, _; (split; [rewrite <- app_assoc; reflexivity | cbn; trivial]).
      * eexists _, _. split; [rewrite <- app_assoc; reflexivity | cbn; trivial].
    + eexists _, _. split; [rewrite <- app_assoc; reflexivity | cbn; trivial].
  - unfold exec, download_youtube_audio.
    rewrite (bind_Return _ _ _ _ _ Hfolder).
    unfold download_body, subprocess_run, unexpected_error, prelude.
    unfold_monad. rewrite Er. cbn [fst snd].
    eexists _, _. split; [norm_trace; reflexivity | exact I].
Qed.

(** Once the output folder is there the function always returns, and every
    run has the same outline: the two progress lines, one subprocess, and
    exactly one closing line.  No result comes back without a line printed
    for it, and a returned path is the one the closing line names. *)
Theorem download_reports_every_outcome
    (url output_folder : string) (s s1 : St) (t1 : list event) :
  ensure_output_folder H output_folder (s, []) = (Return tt, (s1, t1)) ->
  exists r msg,
    result_of (exec (download_youtube_audio H url output_folder) s) = Return r
    /\ trace_of (exec (download_youtube_audio H url output_folder) s)
       = (t1 ++ prelude H s1 url output_folder ++ [Print msg])%list
    /\ (forall p, r = Some p -> msg = "Downloaded and converted to MP3: " ++ p).
Proof.
  intros Hfolder.
  destruct (download_outline url output_folder s s1 t1 Hfolder)
    as (r & msg & E & Hmsg).
  exists r, msg. rewrite E. repeat split.
  intros p ->. exact Hmsg.
Qed.

(** What the function does to the world, on any host: it never touches the
    network, and its only filesystem write is the creation of the output
    folder, made only when the folder was not there on entry. *)
Theorem download_effects_confined (url output_folder : string) (s : St) :
  existsb is_network
    (trace_of (exec (download_youtube_audio H url output_folder) s)) = false
  /\ forall e,
       In e (trace_of (exec (download_youtube_audio H url output_folder) s)) ->
       is_fs_write e = true ->
       e = Makedirs output_folder
       /\ os_path_exists H output_folder s = false.
Proof.
  assert (Hshape :
    exists t1 body,
      trace_of (exec (download_youtube_audio H url output_folder) s)
        = (t1 ++ body)%list
      /\ (t1 = [] \/ (t1 = [Makedirs output_folder]
                      /\ os_path_exists H output_folder s = false))
      /\ forallb (fun e => negb (is_network e) && negb (is_fs_write e)) body
         = true).
  { destruct (ensure_output_folder_cases H output_folder s) as [[Hex Hf]|[Hex Hf]].
    - destruct (download_outline url output_folder s s [] Hf)
        as (r & msg & E & _).
      exists [], (prelude H s url output_folder ++ [Print msg])%list.
      rewrite E. repeat split. now left.
    - destruct (os_makedirs H output_folder false s) as [[[]|e] s1] eqn:Em;
        cbn [fst snd] in Hf.
      + destruct (download_outline url output_folder s s1 _ Hf)
          as (r & msg & E & _).
        exists [Makedirs output_folder],
               (prelude H s1 url output_folder ++ [Print msg])%list.
        rewrite E. repeat split. now right.
      + exists [Makedirs output_folder], [].
        unfold exec, download_youtube_audio.
        rewrite (bind_Raise _ _ _ _ _ Hf). repeat split. now right. }
  destruct Hshape as (t1 & body & Et & Ht1 & Hbody). rewrite Et.
  rewrite forallb_forall in Hbody.
  split.
  - rewrite existsb_app. apply orb_false_iff. split.
    + destruct Ht1 as [->|[-> _]]; reflexivity.
    + destruct (existsb is_network body) eqn:Ex; [|reflexivity].
      apply existsb_exists in Ex as (e & Hin & Hnet).
      specialize (Hbody e Hin). rewrite Hnet in Hbody. discriminate.
  - intros e Hin Hw. apply in_app_or in Hin as [Hin|Hin].
    + destruct Ht1 as [->|[-> Hex]]; [contradiction|].
      destruct Hin as [<-|[]]. now split.
    + specialize (Hbody e Hin). rewrite Hw in Hbody.
      rewrite andb_false_r in Hbody. discriminate.
Qed.

End DownloadBehaviour.

(* ------------------------------------------------------------------ *)
(** *** On concrete hosts *)

(** [yt-dlp] is not installed; the folder is created first. *)
Lemma download_subprocess_raises_no_ytdlp :
  exec (download_youtube_audio Toy.posix Toy.video "downloads") Toy.linux_no_ffmpeg
  = (Return None,
     (snd (Toy.makedirs "downloads" false Toy.linux_no_ffmpeg),
      [ Makedirs "downloads";
        Print ("Attempting to access: " ++ Toy.video);
        Print "Running download command...";
        SubprocessRun
          (download_command Toy.posix Toy.linux_no_ffmpeg Toy.video "downloads");
        Print "Unexpected error: [Errno 2] No such file or directory: 'yt-dlp'" ])).
Proof.
  exact (download_subprocess_raises_returns_none Toy.posix Toy.video "downloads"
           Toy.linux_no_ffmpeg
           (snd (Toy.makedirs "downloads" false Toy.linux_no_ffmpeg))
           (snd (Toy.makedirs "downloads" false Toy.linux_no_ffmpeg))
           [Makedirs "downloads"] (Toy.not_found "yt-dlp") eq_refl eq_refl).
Defined.

(** The marker without a space, although [downloads/song.mp3] is there. *)
Lemma download_marker_without_space_example :
  exec (download_youtube_audio Toy.posix Toy.video "downloads")
    Toy.marker_without_space
  = (Return None,
     (Toy.marker_without_space,
      prelude Toy.posix Toy.marker_without_space Toy.video "downloads"
        ++ [Print "Unexpected error: list index out of range"])%list).
Proof.
  refine (download_marker_without_space_returns_none Toy.posix Toy.video
            "downloads" Toy.marker_without_space Toy.marker_without_space
            Toy.marker_without_space [] (mkCompleted 0 _ "")
            ["[download] 100% of 3.21MiB"] [""]
            "[ExtractAudio] Destination:downloads/song.mp3"
            eq_refl eq_refl eq_refl eq_refl _ eq_refl eq_refl).
  intros l [<-|[]]. reflexivity.
Defined.

(** The first marker line names [downloads/a.mp3], which is missing. *)
Lemma download_missing_marked_path_two_markers :
  result_of (exec (download_youtube_audio Toy.posix Toy.video "downloads")
               Toy.two_markers)
  = Return (Some "downloads/c.mp3").
Proof.
  refine (download_missing_marked_path_falls_back Toy.posix Toy.video
            "downloads" Toy.two_markers Toy.two_markers Toy.two_markers []
            (mkCompleted 0 _ "")
            [] ["[ExtractAudio] Destination: downloads/b.mp3"; ""]
            "[ExtractAudio] Destination: downloads/a.mp3"
            "" "downloads/a.mp3" [] ["b.mp3"; "c.mp3"]
            eq_refl eq_refl eq_refl eq_refl _ eq_refl eq_refl eq_refl).
  intros l [].
Defined.

Lemma download_reports_every_outcome_scenario_A :
  exists r msg,
    result_of (exec (download_youtube_audio Toy.posix Toy.video "downloads")
                 Toy.scenario_A) = Return r
    /\ trace_of (exec (download_youtube_audio Toy.posix Toy.video "downloads")
                   Toy.scenario_A)
       = ([] ++ prelude Toy.posix Toy.scenario_A Toy.video "downloads"
             ++ [Print msg])%list
    /\ (forall p, r = Some p -> msg = "Downloaded and converted to MP3: " ++ p).
Proof.
  exact (download_reports_every_outcome Toy.posix Toy.video "downloads"
           Toy.scenario_A Toy.scenario_A [] eq_refl).
Defined.

(** No marker: the old file, last in the listing, is returned. *)
Lemma download_fallback_returns_last_listed_stale_file :
  result_of (exec (download_youtube_audio Toy.windows Toy.video "downloads")
               Toy.stale_file)
  = Return (Some "downloads\z_old_song.mp3").
Proof.
  refine (download_fallback_returns_last_listed Toy.windows Toy.video
            "downloads" Toy.stale_file Toy.stale_file Toy.stale_file []
            (mkCompleted 0 (Toy.line "[download] 100% of 3.21MiB") "")
            ["a_new_song.mp3"; "z_old_song.mp3"] _
            eq_refl eq_refl eq_refl _ eq_refl eq_refl).
  intros l Hl. vm_compute in Hl. destruct Hl as [<-|[<-|[]]]; reflexivity.
Defined.

Lemma download_result_origin_scenario_A :
  os_path_exists Toy.posix "downloads/song.mp3"
    (state_of (exec (download_youtube_audio Toy.posix Toy.video "downloads")
                 Toy.scenario_A)) = true
  \/ exists names,
       os_listdir Toy.posix "downloads"
         (state_of (exec (download_youtube_audio Toy.posix Toy.video "downloads")
                      Toy.scenario_A))
       = Return names
       /\ In "downloads/song.mp3" (mp3_candidates Toy.posix "downloads" names).
Proof.
  exact (download_result_origin Toy.posix Toy.video "downloads" Toy.scenario_A
           "downloads/song.mp3" eq_refl).
Defined.

Lemma destination_of_marker_line_song :
  destination_of (MARKER_SEP ++ "downloads/song.mp3  ")
  = Return (PyStr.strip "downloads/song.mp3  ").
Proof.
  exact (destination_of_marker_line "downloads/song.mp3  " eq_refl).
Defined.

(* ================================================================== *)
(** ** Further behaviour of the dependency provisioner *)

Section ProvisionerBehaviour.
Context {St : Type} (H : Host St).

Lemma has_ffmpeg_exe (files : list string) :
  existsb (String.eqb "ffmpeg.exe") files = true <-> In "ffmpeg.exe" files.
Proof.
  rewrite existsb_exists. split.
  - intros (f & Hin & E). apply String.eqb_eq in E. now subst.
  - intros Hin. exists "ffmpeg.exe". split; [exact Hin | apply String.eqb_refl].
Qed.

Lemma lacks_ffmpeg_exe (files : list string) :
  ~ In "ffmpeg.exe" files -> existsb (String.eqb "ffmpeg.exe") files = false.
Proof.
  intros Hno. destruct (existsb (String.eqb "ffmpeg.exe") files) eqn:E;
    [|reflexivity].
  apply has_ffmpeg_exe in E. contradiction.
Qed.

(** The search ends at the first directory that holds [ffmpeg.exe]: that
    file is copied, and the directories behind it are not visited. *)
Lemma copy_first_ffmpeg_first
    (before after : list walk_entry) (root : string) (dirs files : list string)
    (dest : string) w :
  (forall r d f, In (r, d, f) before -> ~ In "ffmpeg.exe" f) ->
  In "ffmpeg.exe" files ->
  copy_first_ffmpeg H (before ++ (root, dirs, files) :: after) dest w
  = command (Copy (os_path_join H root "ffmpeg.exe") dest)
      (shutil_copy H (os_path_join H root "ffmpeg.exe") dest) w.
Proof.
  intros Hbefore Hfiles.
  induction before as [|[[r d] f] before IH]; cbn [app copy_first_ffmpeg].
  - apply has_ffmpeg_exe in Hfiles. now rewrite Hfiles.
  - rewrite (lacks_ffmpeg_exe f) by (apply (Hbefore r d); now left).
    apply IH. intros r' d' f' Hin. apply (Hbefore r' d'). now right.
Qed.

(** A tree without [ffmpeg.exe] is walked to the end; nothing is copied and
    nothing is raised. *)
Lemma copy_first_ffmpeg_none (walk : list walk_entry) (dest : string) w :
  (forall r d f, In (r, d, f) walk -> ~ In "ffmpeg.exe" f) ->
  copy_first_ffmpeg H walk dest w = (Return tt, w).
Proof.
  intros Hno.
  induction walk as [|[[r d] f] walk IH]; cbn [copy_first_ffmpeg];
    [reflexivity|].
  rewrite (lacks_ffmpeg_exe f) by (apply (Hno r d); now left).
  apply IH. intros r' d' f' Hin. apply (Hno r' d'). now right.
Qed.

(** An exception of a class that line 16 does not name, such as
    [PermissionError] for a binary that may not be executed, leaves the
    function as it is; nothing is printed. *)
Theorem ensure_ffmpeg_propagates_unlisted_error (s s' : St) (e : exn) :
  subprocess_exec H probe_command s = (Raise e, s') ->
  isinstance_probe_failure e = false ->
  exec (ensure_ffmpeg_installed H) s
  = (Raise e, (s', [SubprocessRun probe_command])).
Proof.
  intros Hrun He. unfold ensure_ffmpeg_installed, subprocess_run.
  unfold_monad. rewrite Hrun, He. reflexivity.
Qed.

(** A binary that is found but exits with a non-zero status counts as
    missing ([check=True] raises [CalledProcessError]): off Windows the
    function prints the manual-install notice and returns [False]. *)
Theorem ensure_ffmpeg_failing_probe_non_windows
    (s s' : St) (cp : CompletedProcess) :
  subprocess_exec H probe_command s = (Return cp, s') ->
  returncode cp <> 0%Z ->
  (platform_system H s' =? "Windows") = false ->
  exec (ensure_ffmpeg_installed H) s
  = (Return false,
     (s', [SubprocessRun probe_command;
           Print "FFmpeg is not installed. Please install it manually."])).
Proof.
  intros Hrun Hrc Hsys. apply Z.eqb_neq in Hrc.
  unfold ensure_ffmpeg_installed, subprocess_run.
  unfold_monad. rewrite Hrun, Hrc. cbn. rewrite Hsys. reflexivity.
Qed.

(** Off Windows the function never goes beyond the probe, whatever the
    probe does: no network access, no filesystem write, and [True] only
    when the binary answered with status 0. *)
Theorem ensure_ffmpeg_non_windows_probe_only (s : St) :
  (platform_system H (snd (subprocess_exec H probe_command s)) =? "Windows")
    = false ->
  existsb is_network (trace_of (exec (ensure_ffmpeg_installed H) s)) = false
  /\ existsb is_fs_write (trace_of (exec (ensure_ffmpeg_installed H) s)) = false
  /\ (result_of (exec (ensure_ffmpeg_installed H) s) = Return true ->
      ffmpeg_invocable H s).
Proof.
  intros Hsys. unfold ensure_ffmpeg_installed, subprocess_run, ffmpeg_invocable.
  unfold_monad.
  destruct (subprocess_exec H probe_command s) as [[cp|e] s'] eqn:Er;
    cbn [fst snd] in *.
  - destruct (returncode cp =? 0)%Z eqn:Erc; cbn [negb andb fst snd].
    + repeat split. intros _. exists cp, s'. split; [reflexivity|].
      now apply Z.eqb_eq.
    + cbn. rewrite Hsys. cbn. repeat split. discriminate.
  - destruct (isinstance_probe_failure e); cbn [fst snd].
    + rewrite Hsys. cbn. repeat split. discriminate.
    + cbn. repeat split. discriminate.
Qed.

(** Windows, the binary missing, every step succeeds and the unpacked tree
    holds [ffmpeg.exe]: the copy taken is the one from the first directory
    that holds it, the temporary directory is removed, and the function
    returns [True]. *)
Theorem ensure_ffmpeg_windows_installs
    (s s1 s2 s3 s4 s5 s6 : St) (e : exn)
    (before after : list walk_entry) (root : string) (dirs files : list string) :
  let here := module_dir H s1 in
  let temp_dir := os_path_join H here "temp" in
  let zip_path := os_path_join H temp_dir "ffmpeg.zip" in
  let ffmpeg_path := os_path_join H root "ffmpeg.exe" in
  subprocess_exec H probe_command s = (Raise e, s1) ->
  isinstance_probe_failure e = true ->
  (platform_system H s1 =? "Windows") = true ->
  os_makedirs H temp_dir true s1 = (Return tt, s2) ->
  urlretrieve H ffmpeg_url zip_path s2 = (Return tt, s3) ->
  zipfile_extractall H zip_path temp_dir s3 = (Return tt, s4) ->
  os_walk H temp_dir s4 = (before ++ (root, dirs, files) :: after)%list ->
  (forall r d f, In (r, d, f) before -> ~ In "ffmpeg.exe" f) ->
  In "ffmpeg.exe" files ->
  shutil_copy H ffmpeg_path here s4 = (Return tt, s5) ->
  shutil_rmtree H temp_dir s5 = (Return tt, s6) ->
  exec (ensure_ffmpeg_installed H) s
  = (Return true,
     (s6,
      [ SubprocessRun probe_command;
        Print "FFmpeg not found. Downloading...";
        Makedirs temp_dir;
        Urlretrieve ffmpeg_url zip_path;
        ExtractAll zip_path temp_dir;
        Copy ffmpeg_path here;
        Rmtree temp_dir;
        Print "FFmpeg downloaded successfully." ])).
Proof.
  intros here temp_dir zip_path ffmpeg_path
    Hrun He Hsys Hmk Hnet Hzip Hwalk Hbefore Hfiles Hcopy Hrm.
  subst here temp_dir zip_path ffmpeg_path.
  unfold ensure_ffmpeg_installed, fetch_ffmpeg, subprocess_run.
  unfold try_except_when, try_except, bind, query, print, ret, exec.
  unfold command at 1. cbn [fst snd]. rewrite Hrun, He. cbn [fst snd].
  rewrite Hsys. cbn [negb fst snd].
  unfold command at 1. cbn [fst snd]. rewrite Hmk.
  unfold command at 1. cbn [fst snd]. rewrite Hnet.
  unfold command at 1. cbn [fst snd]. rewrite Hzip. cbn [fst snd].
  rewrite Hwalk, (copy_first_ffmpeg_first _ _ _ _ _ _ _ Hbefore Hfiles).
  unfold command. cbn [fst snd]. rewrite Hcopy. cbn [fst snd].
  rewrite Hrm. reflexivity.
Qed.

(** The same run on an archive without [ffmpeg.exe]: nothing is copied, and
    the function still removes the temporary directory, prints its success
    line and returns [True]. *)
Theorem ensure_ffmpeg_windows_nothing_to_copy
    (s s1 s2 s3 s4 s5 : St) (e : exn) :
  let here := module_dir H s1 in
  let temp_dir := os_path_join H here "temp" in
  let zip_path := os_path_join H temp_dir "ffmpeg.zip" in
  subprocess_exec H probe_command s = (Raise e, s1) ->
  isinstance_probe_failure e = true ->
  (platform_system H s1 =? "Windows") = true ->
  os_makedirs H temp_dir true s1 = (Return tt, s2) ->
  urlretrieve H ffmpeg_url zip_path s2 = (Return tt, s3) ->
  zipfile_extractall H zip_path temp_dir s3 = (Return tt, s4) ->
  (forall r d f, In (r, d, f) (os_walk H temp_dir s4) -> ~ In "ffmpeg.exe" f) ->
  shutil_rmtree H temp_dir s4 = (Return tt, s5) ->
  exec (ensure_ffmpeg_installed H) s
  = (Return true,
     (s5,
      [ SubprocessRun probe_command;
        Print "FFmpeg not found. Downloading...";
        Makedirs temp_dir;
        Urlretrieve ffmpeg_url zip_path;
        ExtractAll zip_path temp_dir;
        Rmtree temp_dir;
        Print "FFmpeg downloaded successfully." ])).
Proof.
  intros here temp_dir zip_path Hrun He Hsys Hmk Hnet Hzip Hwalk Hrm.
  subst here temp_dir zip_path.
  unfold ensure_ffmpeg_installed, fetch_ffmpeg, subprocess_run.
  unfold try_except_when, try_except, bind, query, print, ret, exec.
  unfold command at 1. cbn [fst snd]. rewrite Hrun, He. cbn [fst snd].
  rewrite Hsys. cbn [negb fst snd].
  unfold command at 1. cbn [fst snd]. rewrite Hmk.
  unfold command at 1. cbn [fst snd]. rewrite Hnet.
  unfold command at 1. cbn [fst snd]. rewrite Hzip. cbn [fst snd].
  rewrite (copy_first_ffmpeg_none _ _ _ Hwalk).
  unfold command. cbn [fst snd]. rewrite Hrm. reflexivity.
Qed.

End ProvisionerBehaviour.

(* ------------------------------------------------------------------ *)
(** *** On concrete hosts *)

(** [ffmpeg] is there but may not be executed. *)
Lemma ensure_ffmpeg_propagates_permission_error :
  exec (ensure_ffmpeg_installed Toy.posix)
    (Toy.linux_tools true (Raise (Toy.permission_denied "ffmpeg")) (Toy.answers 0))
  = (Raise (Toy.permission_denied "ffmpeg"),
     (Toy.linux_tools true (Raise (Toy.permission_denied "ffmpeg")) (Toy.answers 0),
      [SubprocessRun probe_command])).
Proof.
  exact (ensure_ffmpeg_propagates_unlisted_error Toy.posix
           (Toy.linux_tools true (Raise (Toy.permission_denied "ffmpeg"))
              (Toy.answers 0))
           (Toy.linux_tools true (Raise (Toy.permission_denied "ffmpeg"))
              (Toy.answers 0))
           (Toy.permission_denied "ffmpeg") eq_refl eq_refl).
Defined.

(** [ffmpeg -version] exits with status 1 on Linux. *)
Lemma ensure_ffmpeg_failing_probe_linux :
  exec (ensure_ffmpeg_installed Toy.posix)
    (Toy.linux_tools true (Toy.answers 1) (Toy.answers 0))
  = (Return false,
     (Toy.linux_tools true (Toy.answers 1) (Toy.answers 0),
      [SubprocessRun probe_command;
       Print "FFmpeg is not installed. Please install it manually."])).
Proof.
  refine (ensure_ffmpeg_failing_probe_non_windows Toy.posix
            (Toy.linux_tools true (Toy.answers 1) (Toy.answers 0))
            (Toy.linux_tools true (Toy.answers 1) (Toy.answers 0))
            (mkCompleted 1 "" "") eq_refl _ eq_refl).
  simpl. discriminate.
Defined.

Lemma ensure_ffmpeg_non_windows_probe_only_linux :
  existsb is_network
    (trace_of (exec (ensure_ffmpeg_installed Toy.posix) Toy.linux_no_ffmpeg))
  = false
  /\ existsb is_fs_write
       (trace_of (exec (ensure_ffmpeg_installed Toy.posix) Toy.linux_no_ffmpeg))
     = false
  /\ (result_of (exec (ensure_ffmpeg_installed Toy.posix) Toy.linux_no_ffmpeg)
      = Return true ->
      ffmpeg_invocable Toy.posix Toy.linux_no_ffmpeg).
Proof.
  exact (ensure_ffmpeg_non_windows_probe_only Toy.posix Toy.linux_no_ffmpeg
           eq_refl).
Defined.

(** Scenario C again, through the general statement. *)
Lemma ensure_ffmpeg_windows_installs_scenario_C :
  result_of (exec (ensure_ffmpeg_installed Toy.windows) Toy.windows_no_ffmpeg)
  = Return true
  /\ existsb is_copy
       (trace_of (exec (ensure_ffmpeg_installed Toy.windows)
                    Toy.windows_no_ffmpeg))
     = true.
Proof.
  pose (s2 := snd (Toy.makedirs "C:\app\temp" true Toy.windows_no_ffmpeg)).
  pose (s5 := snd (Toy.copy "C:\app\temp\build\bin\ffmpeg.exe" "C:\app" s2)).
  pose proof (ensure_ffmpeg_windows_installs Toy.windows
                Toy.windows_no_ffmpeg Toy.windows_no_ffmpeg s2 s2 s2 s5 s5
                (Toy.not_found "ffmpeg")
                [("C:\app\temp", ["build"], ["ffmpeg.zip"]);
                 ("C:\app\temp\build", ["bin"], ["LICENSE.txt"])]
                [] "C:\app\temp\build\bin" [] ["ffmpeg.exe"; "ffprobe.exe"]
                eq_refl eq_refl eq_refl eq_refl eq_refl eq_refl eq_refl) as E.
  cbv zeta in E. rewrite E.
  - split; reflexivity.
  - intros r d f [[= <- <- <-]|[[= <- <- <-]|[]]] [Hf|[]]; discriminate Hf.
  - left. reflexivity.
  - reflexivity.
  - reflexivity.
Defined.

Lemma ensure_ffmpeg_windows_nothing_to_copy_example :
  result_of (exec (ensure_ffmpeg_installed Toy.windows) Toy.windows_other_archive)
  = Return true
  /\ existsb is_copy
       (trace_of (exec (ensure_ffmpeg_installed Toy.windows)
                    Toy.windows_other_archive))
     = false.
Proof.
  pose (s2 := snd (Toy.makedirs "C:\app\temp" true Toy.windows_other_archive)).
  pose proof (ensure_ffmpeg_windows_nothing_to_copy Toy.windows
                Toy.windows_other_archive Toy.windows_other_archive s2 s2 s2 s2
                (Toy.not_found "ffmpeg")
                eq_refl eq_refl eq_refl eq_refl eq_refl eq_refl) as E.
  cbv zeta in E. rewrite E.
  - split; reflexivity.
  - intros r d f Hin Hf. vm_compute in Hin.
    destruct Hin as [[= <- <- <-]|[[= <- <- <-]|[]]];
      cbn in Hf; intuition discriminate.
  - reflexivity.
Defined.

(** Windows without a network: the download raises [URLError]. *)
Lemma ensure_ffmpeg_download_fails_offline :
  result_of (exec (ensure_ffmpeg_installed Toy.windows) Toy.windows_offline)
  = Return false.
Proof.
  rewrite (ensure_ffmpeg_download_fails Toy.windows Toy.windows_offline
             Toy.windows_offline
             (snd (Toy.makedirs "C:\app\temp" true Toy.windows_offline))
             (snd (Toy.makedirs "C:\app\temp" true Toy.windows_offline))
             (Toy.not_found "ffmpeg")
             (mkExn URLError "<urlopen error [Errno 11001] getaddrinfo failed>")
             eq_refl eq_refl eq_refl eq_refl eq_refl).
  reflexivity.
Defined.

(** [ffmpeg -version] exits with status 1: [check=True] raises. *)
Lemma ensure_ffmpeg_returns_on_probe_failure_nonzero :
  exists b w',
    exec (ensure_ffmpeg_installed Toy.posix)
      (Toy.linux_tools true (Toy.answers 1) (Toy.answers 0))
    = (Return b, w').
Proof.
  exact (ensure_ffmpeg_returns_on_probe_failure Toy.posix
           (Toy.linux_tools true (Toy.answers 1) (Toy.answers 0))
           (called_process_error Toy.posix probe_command 1)
           (Toy.linux_tools true (Toy.answers 1) (Toy.answers 0),
            [SubprocessRun probe_command])
           eq_refl eq_refl).
Defined.

(* ================================================================== *)
(** ** The command-line entry point *)

Ltac unfold_script :=
  unfold run_script, main, check_tools, converse, report,
    try_except_FileNotFoundError, pbind, pret, sys_exit, lift, input, banner;
  cbn [fst snd].

Section EntryPointBehaviour.
Context {St : Type} (H : Host St) (C : Console St).

(** A call lifted into the block adds its records behind those already
    made. *)
Lemma lift_Return {A} (m : M St A) (s s' : St) (t : list console_event)
    (a : A) (evs : list event) :
  m (s, []) = (Return a, (s', evs)) ->
  lift m (s, t) = (Done a, (s', (t ++ map Ran evs)%list)).
Proof. intros E. unfold lift. cbn [fst snd]. now rewrite E. Qed.

Lemma lift_Raise {A} (m : M St A) (s s' : St) (t : list console_event)
    (e : exn) (evs : list event) :
  m (s, []) = (Raise e, (s', evs)) ->
  lift m (s, t) = (@Uncaught A e, (s', (t ++ map Ran evs)%list)).
Proof. intros E. unfold lift. cbn [fst snd]. now rewrite E. Qed.

(** Packaged, and the transcoder cannot be provided: the block waits for
    Enter and ends with [sys.exit(1)].  [yt-dlp] is never looked for, no
    URL is asked for and nothing is downloaded. *)
Theorem main_packaged_exits_without_ffmpeg
    (s s1 s2 : St) (te : list event) (typed : string) :
  sys_frozen H s = true ->
  exec (ensure_ffmpeg_installed H) s = (Return false, (s1, te)) ->
  console_input C "Press Enter to exit..." s1 = (Return typed, s2) ->
  run_script (main H C) s
  = (SysExit 1,
     (s2,
      (banner C s
       ++ [Ran (Print "Running as bundled executable")]
       ++ map Ran te
       ++ [Input "Press Enter to exit..."])%list)).
Proof.
  intros Hfrozen Hensure Hin. unfold exec in Hensure.
  unfold_script. unfold print at 1 2, query at 1 2. cbn [fst snd app map].
  rewrite Hfrozen. unfold print at 1. cbn [fst snd app map].
  rewrite Hensure. cbn [negb fst snd]. rewrite Hin.
  rewrite <- ?app_assoc. reflexivity.
Qed.

(** Not packaged, and [yt-dlp --version] runs: whatever its exit status,
    nothing is installed.  If the transcoder cannot be provided the block
    waits for Enter and ends with [sys.exit(1)]. *)
Theorem main_script_exits_without_ffmpeg
    (s s0 s1 s2 : St) (cp : CompletedProcess) (te : list event)
    (typed : string) :
  sys_frozen H s = false ->
  subprocess_exec H ytdlp_version_command s = (Return cp, s0) ->
  exec (ensure_ffmpeg_installed H) s0 = (Return false, (s1, te)) ->
  console_input C "Press Enter to exit..." s1 = (Return typed, s2) ->
  run_script (main H C) s
  = (SysExit 1,
     (s2,
      (banner C s
       ++ [Ran (SubprocessRun ytdlp_version_command)]
       ++ map Ran te
       ++ [Input "Press Enter to exit..."])%list)).
Proof.
  intros Hfrozen Hyt Hensure Hin. unfold exec in Hensure.
  unfold ytdlp_version_command in *.
  unfold_script. unfold print at 1 2, query at 1 2. cbn [fst snd app map].
  rewrite Hfrozen.
  unfold subprocess_run at 1, bind, command, ret. cbn [fst snd andb].
  rewrite Hyt. cbn [fst snd app map].
  rewrite Hensure. cbn [negb fst snd]. rewrite Hin.
  rewrite <- ?app_assoc. reflexivity.
Qed.


(** Not packaged, and looking for [yt-dlp] raises something other than
    [FileNotFoundError]: the exception is caught nowhere and the block
    ends with it. *)
Theorem main_ytdlp_probe_error_is_uncaught (s s0 : St) (e : exn) :
  sys_frozen H s = false ->
  subprocess_exec H ytdlp_version_command s = (Raise e, s0) ->
  exc_type e <> FileNotFoundError ->
  run_script (main H C) s
  = (Uncaught e,
     (s0, (banner C s ++ [Ran (SubprocessRun ytdlp_version_command)])%list)).
Proof.
  intros Hfrozen Hyt He.
  unfold ytdlp_version_command in *.
  unfold_script. unfold print at 1 2, query at 1 2. cbn [fst snd app map].
  rewrite Hfrozen.
  unfold subprocess_run at 1, bind at 1, command at 1. cbn [fst snd].
  rewrite Hyt. cbn [fst snd app map].
  destruct (exc_type e); try reflexivity. congruence.
Qed.

(** Once both tools are there, the block asks for the URL, passes what was
    typed, unchanged, to [download_youtube_audio] with the folder
    ["downloads"], prints the success line for a non-empty path and the
    failure line otherwise, waits for Enter and ends normally. *)
Theorem main_reports_download
    (s s1 s2 s3 s4 : St) (t1 : list console_event) (td : list event)
    (url typed : string) (result : option string) :
  check_tools H C (s, banner C s) = (Done tt, (s1, t1)) ->
  console_input C "Enter YouTube video URL: " s1 = (Return url, s2) ->
  exec (download_youtube_audio H url "downloads") s2
    = (Return result, (s3, td)) ->
  console_input C "Press Enter to exit..." s3 = (Return typed, s4) ->
  run_script (main H C) s
  = (Done tt,
     (s4,
      (t1
       ++ [ Ran (Print "Make sure you have ffmpeg installed (brew install ffmpeg)");
            Input "Enter YouTube video URL: " ]
       ++ map Ran td
       ++ [ Ran (Print match result with
                       | Some (String c p) =>
                           "Success! File saved to: " ++ String c p
                       | _ => "Download failed. Please check the errors above."
                       end);
            Input "Press Enter to exit..." ])%list)).
Proof.
  intros Htools Hurl Hdl Hin. unfold exec in Hdl.
  unfold run_script, main, pbind, banner in *.
  unfold lift at 1 2 3, print at 1 2, query at 1. cbn [fst snd app map].
  rewrite Htools.
  unfold converse, pbind, pret, lift, input. cbn [fst snd].
  unfold print at 1. cbn [fst snd]. rewrite Hurl. cbn [fst snd].
  rewrite Hdl. cbn [fst snd].
  assert (Er : report result (s3, [])
               = (Return tt,
                  (s3, [Print match result with
                              | Some (String c p) =>
                                  "Success! File saved to: " ++ String c p
                              | _ => "Download failed. Please check the errors above."
                              end]))).
  { unfold report, print. destruct result as [[|c p]|]; reflexivity. }
  rewrite Er. cbn [fst snd]. rewrite Hin.
  cbn [map]. rewrite <- ?app_assoc. reflexivity.
Qed.

End EntryPointBehaviour.

(* ------------------------------------------------------------------ *)
(** *** On concrete hosts *)

Lemma main_packaged_exits_without_ffmpeg_linux :
  fst (run_script (main Toy.posix (toy_console Toy.video))
         (Toy.linux_tools true (Raise (Toy.not_found "ffmpeg")) (Toy.answers 0)))
  = SysExit 1.
Proof.
  rewrite (main_packaged_exits_without_ffmpeg Toy.posix (toy_console Toy.video)
             (Toy.linux_tools true (Raise (Toy.not_found "ffmpeg")) (Toy.answers 0))
             (Toy.linux_tools true (Raise (Toy.not_found "ffmpeg")) (Toy.answers 0))
             (Toy.linux_tools true (Raise (Toy.not_found "ffmpeg")) (Toy.answers 0))
             [SubprocessRun probe_command;
              Print "FFmpeg is not installed. Please install it manually."]
             "" eq_refl eq_refl eq_refl).
  reflexivity.
Defined.

Lemma main_script_exits_without_ffmpeg_linux :
  fst (run_script (main Toy.posix (toy_console Toy.video))
         (Toy.linux_tools false (Raise (Toy.not_found "ffmpeg")) (Toy.answers 3)))
  = SysExit 1.
Proof.
  rewrite (main_script_exits_without_ffmpeg Toy.posix (toy_console Toy.video)
             (Toy.linux_tools false (Raise (Toy.not_found "ffmpeg")) (Toy.answers 3))
             (Toy.linux_tools false (Raise (Toy.not_found "ffmpeg")) (Toy.answers 3))
             (Toy.linux_tools false (Raise (Toy.not_found "ffmpeg")) (Toy.answers 3))
             (Toy.linux_tools false (Raise (Toy.not_found "ffmpeg")) (Toy.answers 3))
             (mkCompleted 3 "" "")
             [SubprocessRun probe_command;
              Print "FFmpeg is not installed. Please install it manually."]
             "" eq_refl eq_refl eq_refl eq_refl).
  reflexivity.
Defined.


Lemma main_ytdlp_probe_error_is_uncaught_example :
  fst (run_script (main Toy.posix (toy_console Toy.video))
         (Toy.linux_tools false (Toy.answers 0)
            (Raise (Toy.permission_denied "yt-dlp"))))
  = Uncaught (Toy.permission_denied "yt-dlp").
Proof.
  rewrite (main_ytdlp_probe_error_is_uncaught Toy.posix (toy_console Toy.video)
             (Toy.linux_tools false (Toy.answers 0)
                (Raise (Toy.permission_denied "yt-dlp")))
             (Toy.linux_tools false (Toy.answers 0)
                (Raise (Toy.permission_denied "yt-dlp")))
             (Toy.permission_denied "yt-dlp") eq_refl eq_refl);
    [reflexivity | simpl; discriminate].
Defined.

(** Scenario A from the prompt to the last line. *)
Lemma main_reports_download_scenario_A :
  fst (run_script (main Toy.posix (toy_console Toy.video)) Toy.scenario_A)
  = Done tt
  /\ In (Ran (Print "Success! File saved to: downloads/song.mp3"))
       (snd (snd (run_script (main Toy.posix (toy_console Toy.video))
                    Toy.scenario_A))).
Proof.
  rewrite (main_reports_download Toy.posix (toy_console Toy.video)
             Toy.scenario_A Toy.scenario_A Toy.scenario_A Toy.scenario_A
             Toy.scenario_A
             (banner (toy_console Toy.video) Toy.scenario_A
              ++ [Ran (SubprocessRun ytdlp_version_command);
                  Ran (SubprocessRun probe_command)])%list
             (prelude Toy.posix Toy.scenario_A Toy.video "downloads"
              ++ [Print "Downloaded and converted to MP3: downloads/song.mp3"])%list
             Toy.video "" (Some "downloads/song.mp3")
             eq_refl eq_refl eq_refl eq_refl).
  split; [reflexivity|]. cbn. intuition.
Defined.
